(** * jewei-mssql-mcp-server: the guarded query and introspection core

    A shallow embedding of [server.py] (the connection provider
    [get_db_connection] and the tools [query_sql], [get_table_structure]
    and [list_tables]) together with the properties of the specification
    that concern them.

    Python [str] values are sequences of Unicode code points, exceptions are
    an explicit result type, the module-level [engine] variable and the
    standard output are fields of an explicit process state, and the SQL
    Server instance is an explicit [World] the calls are run against. *)

From Stdlib Require Import List NArith ZArith Bool Ascii String Lia.
From Stdlib Require Import DecimalString.
Import ListNotations.
Local Open Scope N_scope.

(* ================================================================== *)
(** ** Python strings *)

Module PyStr.

(** A Python [str]: its code points. *)
Definition pystr := list N.

Definition bytes_of (s : string) : list N :=
  map N_of_ascii (list_ascii_of_string s).

(** The literals of the source file are UTF-8; [utf8_decode] gives the
    code points that Python sees. *)
Fixpoint utf8_decode (l : list N) : pystr :=
  match l with
  | [] => []
  | b :: t =>
      if b <? 128 then b :: utf8_decode t
      else if b <? 224 then
        match t with
        | c :: t' => ((b mod 32) * 64 + c mod 64) :: utf8_decode t'
        | _ => []
        end
      else if b <? 240 then
        match t with
        | c :: d :: t' =>
            ((b mod 16) * 4096 + (c mod 64) * 64 + d mod 64) :: utf8_decode t'
        | _ => []
        end
      else
        match t with
        | c :: d :: e :: t' =>
            ((b mod 8) * 262144 + (c mod 64) * 4096 + (d mod 64) * 64 + e mod 64)
              :: utf8_decode t'
        | _ => []
        end
  end.

(** A string literal of the source. *)
Definition py (s : string) : pystr := utf8_decode (bytes_of s).

Definition eqb (a b : pystr) : bool :=
  if list_eq_dec N.eq_dec a b then true else false.

(** [str.isspace] on one code point, as [str.strip()] uses it: the ASCII
    table of the interpreter (TAB, LF, VT, FF, CR, FS, GS, RS, US, SPACE)
    and the Unicode white-space code points. *)
Definition isspace (c : N) : bool :=
  ((9 <=? c) && (c <=? 13)) || ((28 <=? c) && (c <=? 32))
  || (c =? 133) || (c =? 160) || (c =? 5760)
  || ((8192 <=? c) && (c <=? 8202))
  || (c =? 8232) || (c =? 8233) || (c =? 8239) || (c =? 8287) || (c =? 12288).

Fixpoint lstrip (s : pystr) : pystr :=
  match s with
  | c :: t => if isspace c then lstrip t else s
  | [] => []
  end.

Definition rstrip (s : pystr) : pystr := rev (lstrip (rev s)).

(** [s.strip()] *)
Definition strip (s : pystr) : pystr := rstrip (lstrip s).

Definition isascii (s : pystr) : bool := forallb (fun c => c <? 128) s.

Definition ascii_lower (c : N) : N :=
  if (65 <=? c) && (c <=? 90) then c + 32 else c.

(** [s.startswith(p)] *)
Fixpoint startswith (p s : pystr) : bool :=
  match p, s with
  | [], _ => true
  | a :: p', b :: s' => (a =? b) && startswith p' s'
  | _ :: _, [] => false
  end.

(** [p in s] *)
Fixpoint contains (p s : pystr) : bool :=
  startswith p s || match s with [] => false | _ :: t => contains p t end.

(** [str(n)] for an integer. *)
Definition str_of_Z (z : Z) : pystr :=
  bytes_of (NilEmpty.string_of_int (Z.to_int z)).

End PyStr.
Import PyStr.

(* ================================================================== *)
(** ** Values, exceptions and the store *)

(** What the driver hands back for [e.orig]: its text and, when the
    [args] tuple is not empty, the text of that tuple. *)
Record orig_error := mk_orig { orig_str : pystr; orig_args : option pystr }.

(** An exception: whether its class derives from [SQLAlchemyError]
    (every exception here derives from [Exception]), and [str(e)]. *)
Record exn := mk_exn {
  exn_sqlalchemy : bool;
  exn_msg : pystr;
  exn_orig : option orig_error
}.

Inductive res (A : Type) : Type :=
| Ok (a : A)
| Raise (e : exn).
Arguments Ok {A} a.
Arguments Raise {A} e.

(** A value of one cell of a result row. *)
Inductive dbval :=
| DNone
| DBool (b : bool)
| DInt (z : Z)
| DStr (s : pystr)
| DOther (text : pystr).

(** [str(value)] *)
Definition py_str (v : dbval) : pystr :=
  match v with
  | DNone => py "None"
  | DBool true => py "True"
  | DBool false => py "False"
  | DInt z => str_of_Z z
  | DStr s => s
  | DOther text => text
  end.

(** The values the tools return: cell values, lists and dicts. A dict keeps
    its keys in insertion order. *)
#[warnings="-register-all"] Inductive pyval :=
| VAtom (v : dbval)
| VList (l : list pyval)
| VDict (d : list (pystr * pyval)).

Definition dict := list (pystr * pyval).
Definition VNone : pyval := VAtom DNone.
Definition VStr (s : pystr) : pyval := VAtom (DStr s).
Definition VInt (z : Z) : pyval := VAtom (DInt z).

(** [d[k]], when present *)
Fixpoint dict_get (d : dict) (k : pystr) : option pyval :=
  match d with
  | [] => None
  | (k', v) :: t => if PyStr.eqb k' k then Some v else dict_get t k
  end.

(** [d[k] = v]: an existing key keeps its place, a new key goes last. *)
Fixpoint dict_set (d : dict) (k : pystr) (v : pyval) : dict :=
  match d with
  | [] => [(k, v)]
  | (k', v') :: t =>
      if PyStr.eqb k' k then (k', v) :: t else (k', v') :: dict_set t k v
  end.

Definition dict_keys (d : dict) : list pystr := map fst d.

(** [k in d] *)
Definition dict_mem (d : dict) (k : pystr) : bool :=
  match dict_get d k with Some _ => true | None => false end.

(** A row of a result: reading cell [i] gives a value or raises; [str(row)]
    is the text the driver prints for it. *)
Record Row := mk_row { cells : list (res dbval); row_str : pystr }.

Definition IndexError : exn :=
  mk_exn false (py "tuple index out of range") None.

(** [row[i]] *)
Definition row_get (row : Row) (i : nat) : res dbval :=
  match nth_error (cells row) i with
  | Some c => c
  | None => Raise IndexError
  end.

(** A result cursor: [result.keys()], the rows it yields in order, and the
    error (if any) that fetching raises once those rows are consumed. *)
Record Cursor := mk_cursor {
  keys : list pystr;
  cur_rows : list Row;
  fetch_error : option exn
}.

(** The SQLAlchemy engine built by [create_engine]. *)
Record Engine := mk_engine {
  url : pystr;
  pool_pre_ping : bool;
  pool_recycle : Z;
  connect_timeout : Z
}.

(** What the process does to the outside. *)
Inductive db_event :=
| CreateEngine (u : pystr)
| Connect
| Execute (sql : pystr).

(** The SQL Server instance and driver, as seen during one tool call. *)
Record World := mk_world {
  create_engine_outcome : pystr -> option exn;
  connect_outcome : option exn;
  execute_outcome : pystr -> res Cursor
}.

(** The environment variables read at import, [None] when unset. *)
Record Config := mk_config {
  DB_HOST : option pystr;
  DB_USER : option pystr;
  DB_PASSWORD : option pystr;
  DB_NAME : option pystr;
  DB_PORT : option pystr
}.

(** The process: the module-level [engine], what was printed, and what was
    sent to the store, oldest first. *)
Record State := mk_state {
  engine : option Engine;
  stdout : list pystr;
  db_trace : list db_event
}.

Definition initial_state : State := mk_state None [] [].

(* ================================================================== *)
(** ** State and exception monad *)

Definition M (A : Type) : Type := State -> res A * State.

Definition ret {A} (a : A) : M A := fun st => (Ok a, st).

Definition bind {A B} (m : M A) (k : A -> M B) : M B :=
  fun st =>
    match m st with
    | (Ok a, st') => k a st'
    | (Raise e, st') => (Raise e, st')
    end.

Definition raise {A} (e : exn) : M A := fun st => (Raise e, st).

Definition lift {A} (r : res A) : M A := fun st => (r, st).

(** [try: m except Exception as e: h e] *)
Definition try_except {A} (m : M A) (h : exn -> M A) : M A :=
  fun st =>
    match m st with
    | (Ok a, st') => (Ok a, st')
    | (Raise e, st') => h e st'
    end.

(** [try: m except SQLAlchemyError as e: h e] *)
Definition try_except_sqlalchemy {A} (m : M A) (h : exn -> M A) : M A :=
  fun st =>
    match m st with
    | (Ok a, st') => (Ok a, st')
    | (Raise e, st') =>
        if exn_sqlalchemy e then h e st' else (Raise e, st')
    end.

Declare Scope py_scope.
Delimit Scope py_scope with py.
Notation "x <- c1 ;; c2" := (bind c1 (fun x => c2))
  (at level 61, c1 at next level, right associativity) : py_scope.
Notation "c1 ;; c2" := (bind c1 (fun _ => c2))
  (at level 61, right associativity) : py_scope.
Local Open Scope py_scope.

Definition print (line : pystr) : M unit :=
  fun st => (Ok tt, mk_state (engine st) (stdout st ++ [line]) (db_trace st)).

Definition emit (ev : db_event) : M unit :=
  fun st => (Ok tt, mk_state (engine st) (stdout st) (db_trace st ++ [ev])).

Definition get_engine : M (option Engine) := fun st => (Ok (engine st), st).

Definition set_engine (e : Engine) : M unit :=
  fun st => (Ok tt, mk_state (Some e) (stdout st) (db_trace st)).

(** A [for] loop whose body updates a local accumulator. *)
Fixpoint for_each {A S} (body : S -> A -> M S) (l : list A) (s : S) : M S :=
  match l with
  | [] => ret s
  | a :: t => s' <- body s a ;; for_each body t s'
  end.

(** [for row in result: body], the cursor raising its fetch error after
    its last row. *)
Definition for_cursor {S} (body : S -> Row -> M S) (c : Cursor) (s : S) : M S :=
  s' <- for_each body (cur_rows c) s ;;
  match fetch_error c with
  | Some e => raise e
  | None => ret s'
  end.

(** [result.fetchone()] *)
Definition fetchone (c : Cursor) : M (option Row) :=
  match cur_rows c with
  | r :: _ => ret (Some r)
  | [] => match fetch_error c with Some e => raise e | None => ret None end
  end.

(** [enumerate(l)] *)
Definition enumerate {A} (l : list A) : list (nat * A) :=
  combine (seq 0 (List.length l)) l.

(** [list.append] *)
Definition append {A} (l : list A) (a : A) : list A := l ++ [a].

(** An environment variable inside an f-string. *)
Definition fmt (o : option pystr) : pystr :=
  match o with Some s => s | None => py "None" end.

(* ================================================================== *)
(** ** server.py *)

Section Server.

(** [str.lower] on a string that is not pure ASCII follows the Unicode case
    tables of the interpreter; they are taken as given. *)
Variable unicode_lower : pystr -> pystr.
Variable cfg : Config.
Variable W : World.

(** [s.lower()] *)
Definition lower (s : pystr) : pystr :=
  if isascii s then map ascii_lower s else unicode_lower s.

Definition CONNECTION_STRING : pystr :=
  py "mssql+pyodbc://" ++ fmt (DB_USER cfg) ++ py ":" ++ fmt (DB_PASSWORD cfg)
  ++ py "@" ++ fmt (DB_HOST cfg) ++ py ":" ++ fmt (DB_PORT cfg) ++ py "/"
  ++ fmt (DB_NAME cfg)
  ++ py "?driver=SQL+Server&timeout=30&trusted_connection=no&encrypt=no".

(** [create_engine(u, pool_pre_ping=.., pool_recycle=.., connect_args={'timeout': ..})] *)
Definition create_engine (u : pystr) (pre_ping : bool) (recycle timeout : Z)
  : M Engine :=
  emit (CreateEngine u) ;;
  match create_engine_outcome W u with
  | Some e => raise e
  | None => ret (mk_engine u pre_ping recycle timeout)
  end.

Definition AttributeError : exn :=
  mk_exn false (py "'NoneType' object has no attribute 'connect'") None.

(** [with engine.connect() as conn:] *)
Definition connect (eng : option Engine) : M unit :=
  match eng with
  | None => raise AttributeError
  | Some _ =>
      emit Connect ;;
      match connect_outcome W with
      | Some e => raise e
      | None => ret tt
      end
  end.

(** [conn.execute(text(sql))] *)
Definition execute (sql : pystr) : M Cursor :=
  emit (Execute sql) ;;
  lift (execute_outcome W sql).

Definition get_db_connection : M (option Engine) :=
  eng <- get_engine ;;
  match eng with
  | None =>
      try_except_sqlalchemy
        (print (py "正在创建数据库连接...") ;;
         print (py "连接到: " ++ fmt (DB_HOST cfg) ++ py ":" ++ fmt (DB_PORT cfg)
                ++ py ", 数据库: " ++ fmt (DB_NAME cfg)
                ++ py ", 用户: " ++ fmt (DB_USER cfg)) ;;
         print (py "连接字符串: " ++ CONNECTION_STRING) ;;
         e <- create_engine CONNECTION_STRING true 3600 30 ;;
         set_engine e ;;
         eng <- get_engine ;;
         connect eng ;;
         c <- execute (py "SELECT 1") ;;
         result <- fetchone c ;;
         print (py "测试连接结果: "
                ++ match result with Some r => row_str r | None => py "None" end) ;;
         print (py "数据库连接创建成功"))
        (fun e =>
           let error_msg := py "数据库连接失败: " ++ exn_msg e in
           print error_msg ;;
           match exn_orig e with
           | Some o =>
               print (py "原始错误: " ++ orig_str o) ;;
               match orig_args o with
               | Some a => print (py "错误参数: " ++ a)
               | None => ret tt
               end
           | None => ret tt
           end ;;
           raise (mk_exn false error_msg None))
  | Some _ => ret tt
  end ;;
  get_engine.

Definition dangerous_keywords : list pystr :=
  [py "insert"; py "update"; py "delete"; py "drop"; py "alter"; py "create";
   py "truncate"; py "exec"; py "execute"].

(** [f" {keyword} " in f" {sql_lower} "] *)
Definition keyword_in (sql_lower keyword : pystr) : bool :=
  contains (py " " ++ keyword ++ py " ") (py " " ++ sql_lower ++ py " ").

(** [{col: row[i] for i, col in enumerate(columns)}] *)
Fixpoint dict_comprehension (ics : list (nat * pystr)) (row : Row) (d : dict)
  : res dict :=
  match ics with
  | [] => Ok d
  | (i, col) :: rest =>
      match row_get row i with
      | Ok v => dict_comprehension rest row (dict_set d col (VAtom v))
      | Raise e => Raise e
      end
  end.

(** The inner loop of the second attempt:
    [try: row_dict[col] = row[i] except: row_dict[col] = None]. *)
Definition cell_or_none (row : Row) (row_dict : dict) (ic : nat * pystr)
  : M dict :=
  let (i, col) := ic in
  try_except
    (v <- lift (row_get row i) ;; ret (dict_set row_dict col (VAtom v)))
    (fun _ => ret (dict_set row_dict col VNone)).

(** The body of [for row in result:] in [query_sql]. *)
Definition materialize_row (columns : list pystr) (result_rows : list pyval)
  (row : Row) : M (list pyval) :=
  try_except
    (row_dict <- lift (dict_comprehension (enumerate columns) row []) ;;
     ret (append result_rows (VDict row_dict)))
    (fun row_err =>
       print (py "处理行数据时出错: " ++ exn_msg row_err) ;;
       try_except
         (row_dict <- for_each (cell_or_none row) (enumerate columns) [] ;;
          ret (append result_rows (VDict row_dict)))
         (fun e =>
            print (py "处理行数据的备选方法也失败: " ++ exn_msg e) ;;
            ret (append result_rows (VDict [(py "value", VStr (row_str row))])))).

Definition query_sql (sql : pystr) : M pyval :=
  try_except
    (print (py "执行SQL查询: " ++ firstn 100 sql
            ++ (if (100 <? List.length sql)%nat then py "..." else [])) ;;
     let sql_lower := strip (lower sql) in
     if negb (startswith (py "select") sql_lower) then
       let error_msg := py "安全限制：只允许执行SELECT语句" in
       print (error_msg ++ py ", SQL: " ++ sql) ;;
       ret (VDict [(py "error", VStr error_msg); (py "sql", VStr sql)])
     else
       match find (keyword_in sql_lower) dangerous_keywords with
       | Some keyword =>
           let error_msg :=
             py "安全限制：查询中包含禁止的关键字 '" ++ keyword ++ py "'" in
           print (error_msg ++ py ", SQL: " ++ sql) ;;
           ret (VDict [(py "error", VStr error_msg); (py "sql", VStr sql)])
       | None =>
           engine <- get_db_connection ;;
           connect engine ;;
           result <- execute sql ;;
           let columns := keys result in
           result_rows <- for_cursor (materialize_row columns) result [] ;;
           print (py "查询成功，返回 "
                  ++ str_of_Z (Z.of_nat (List.length result_rows))
                  ++ py " 条记录") ;;
           ret (VDict [(py "columns", VList (map VStr columns));
                       (py "rows", VList result_rows);
                       (py "row_count", VInt (Z.of_nat (List.length result_rows)))])
       end)
    (fun e =>
       let error_msg := py "查询执行失败: " ++ exn_msg e in
       print (error_msg ++ py ", SQL: " ++ sql) ;;
       ret (VDict [(py "error", VStr (exn_msg e)); (py "sql", VStr sql)])).

(** The local [columns_sql] of [get_table_structure]. *)
Definition columns_sql (table_name schema : pystr) : pystr :=
  py "
        SELECT 
            c.name AS column_name,
            t.name AS data_type,
            c.max_length,
            c.precision,
            c.scale,
            c.is_nullable,
            CAST(ISNULL(CAST(ep.value AS NVARCHAR(MAX)), '') AS NVARCHAR(MAX)) AS description
        FROM 
            sys.columns c
        JOIN 
            sys.types t ON c.user_type_id = t.user_type_id
        JOIN 
            sys.tables tb ON c.object_id = tb.object_id
        JOIN 
            sys.schemas s ON tb.schema_id = s.schema_id
        LEFT JOIN 
            sys.extended_properties ep ON c.object_id = ep.major_id AND c.column_id = ep.minor_id AND ep.name = 'MS_Description'
        WHERE 
            tb.name = '"
  ++ table_name
  ++ py "' AND s.name = '"
  ++ schema
  ++ py "'
        ORDER BY 
            c.column_id
        ".

(** The local [simple_columns_sql] of [get_table_structure]. *)
Definition simple_columns_sql (table_name schema : pystr) : pystr :=
  py "
        SELECT 
            c.name AS column_name,
            t.name AS data_type,
            c.max_length,
            c.precision,
            c.scale,
            c.is_nullable
        FROM 
            sys.columns c
        JOIN 
            sys.types t ON c.user_type_id = t.user_type_id
        JOIN 
            sys.tables tb ON c.object_id = tb.object_id
        JOIN 
            sys.schemas s ON tb.schema_id = s.schema_id
        WHERE 
            tb.name = '"
  ++ table_name
  ++ py "' AND s.name = '"
  ++ schema
  ++ py "'
        ORDER BY 
            c.column_id
        ".

(** The local [pk_sql] of [get_table_structure]. *)
Definition pk_sql (table_name schema : pystr) : pystr :=
  py "
        SELECT 
            c.name AS column_name
        FROM 
            sys.indexes i
        JOIN 
            sys.index_columns ic ON i.object_id = ic.object_id AND i.index_id = ic.index_id
        JOIN 
            sys.columns c ON ic.object_id = c.object_id AND ic.column_id = c.column_id
        JOIN 
            sys.tables t ON i.object_id = t.object_id
        JOIN 
            sys.schemas s ON t.schema_id = s.schema_id
        WHERE 
            i.is_primary_key = 1 AND t.name = '"
  ++ table_name
  ++ py "' AND s.name = '"
  ++ schema
  ++ py "'
        ".

(** The local [fk_sql] of [get_table_structure]. *)
Definition fk_sql (table_name schema : pystr) : pystr :=
  py "
        SELECT 
            fk.name AS fk_name,
            COL_NAME(fc.parent_object_id, fc.parent_column_id) AS column_name,
            OBJECT_NAME(fc.referenced_object_id) AS referenced_table,
            COL_NAME(fc.referenced_object_id, fc.referenced_column_id) AS referenced_column
        FROM 
            sys.foreign_keys fk
        JOIN 
            sys.foreign_key_columns fc ON fk.object_id = fc.constraint_object_id
        JOIN 
            sys.tables t ON fk.parent_object_id = t.object_id
        JOIN 
            sys.schemas s ON t.schema_id = s.schema_id
        WHERE 
            t.name = '"
  ++ table_name
  ++ py "' AND s.name = '"
  ++ schema
  ++ py "'
        ".

(** The local [index_sql] of [get_table_structure]. *)
Definition index_sql (table_name schema : pystr) : pystr :=
  py "
        SELECT 
            i.name AS index_name,
            i.type_desc AS index_type,
            i.is_unique,
            STRING_AGG(c.name, ', ') WITHIN GROUP (ORDER BY ic.key_ordinal) AS columns
        FROM 
            sys.indexes i
        JOIN 
            sys.index_columns ic ON i.object_id = ic.object_id AND i.index_id = ic.index_id
        JOIN 
            sys.columns c ON ic.object_id = c.object_id AND ic.column_id = c.column_id
        JOIN 
            sys.tables t ON i.object_id = t.object_id
        JOIN 
            sys.schemas s ON t.schema_id = s.schema_id
        WHERE 
            t.name = '"
  ++ table_name
  ++ py "' AND s.name = '"
  ++ schema
  ++ py "' AND i.is_primary_key = 0
        GROUP BY
            i.name, i.type_desc, i.is_unique
        ".

(** The local [sql] of [list_tables]. *)
Definition list_tables_sql (schema : pystr) : pystr :=
  py "
        SELECT 
            t.name AS table_name,
            CAST(ISNULL(CAST(ep.value AS NVARCHAR(MAX)), '') AS NVARCHAR(MAX)) AS description,
            s.name AS schema_name
        FROM 
            sys.tables t
        JOIN 
            sys.schemas s ON t.schema_id = s.schema_id
        LEFT JOIN 
            sys.extended_properties ep ON t.object_id = ep.major_id AND ep.minor_id = 0 AND ep.name = 'MS_Description'
        WHERE 
            s.name = '"
  ++ schema
  ++ py "'
        ORDER BY 
            t.name
        ".

(** The local [simple_sql] of [list_tables]. *)
Definition list_tables_simple_sql (schema : pystr) : pystr :=
  py "
        SELECT 
            t.name AS table_name,
            s.name AS schema_name
        FROM 
            sys.tables t
        JOIN 
            sys.schemas s ON t.schema_id = s.schema_id
        WHERE 
            s.name = '"
  ++ schema
  ++ py "'
        ORDER BY 
            t.name
        ".

(** The per-cell loop of the introspection tools: every value becomes text,
    [None] and a cell that raises become the empty string.
    [on_error col err] is what the handler prints (nothing for a bare
    [except:]). *)
Definition text_cell (on_error : pystr -> exn -> M unit) (row : Row)
  (row_dict : dict) (ic : nat * pystr) : M dict :=
  let (i, col) := ic in
  try_except
    (value <- lift (row_get row i) ;;
     match value with
     | DNone => ret (dict_set row_dict col (VStr (py "")))
     | _ => ret (dict_set row_dict col (VStr (py_str value)))
     end)
    (fun err => on_error col err ;; ret (dict_set row_dict col (VStr (py "")))).

Definition silently (col : pystr) (err : exn) : M unit := ret tt.

Definition log_cell_error (col : pystr) (val_err : exn) : M unit :=
  print (py "处理列 " ++ col ++ py " 的值时出错: " ++ exn_msg val_err).

(** [str(row[0]) if row and len(row) > 0 else "unknown"] *)
Definition first_cell_or_unknown (row : Row) : M pystr :=
  match cells row with
  | [] => ret (py "unknown")
  | _ :: _ => value <- lift (row_get row 0) ;; ret (py_str value)
  end.

(** [if "description" not in row_dict: row_dict["description"] = ""] *)
Definition default_description (row_dict : dict) : dict :=
  if negb (dict_mem row_dict (py "description"))
  then dict_set row_dict (py "description") (VStr (py ""))
  else row_dict.

(** The row loop of the single-tier sub-queries (primary keys, foreign
    keys, indexes): [label] is the printed text, [key] the field of the
    one-field fallback. *)
Definition plain_row (label key : pystr) (col_names : list pystr)
  (acc : list pyval) (row : Row) : M (list pyval) :=
  try_except
    (row_dict <- for_each (text_cell silently row) (enumerate col_names) [] ;;
     ret (append acc (VDict row_dict)))
    (fun e =>
       print (label ++ exn_msg e) ;;
       name <- first_cell_or_unknown row ;;
       ret (append acc (VDict [(key, VStr name)]))).

(** The row loop of the first (rich) tier of the columns query. *)
Definition rich_column_row (col_names : list pystr) (columns : list pyval)
  (row : Row) : M (list pyval) :=
  try_except
    (row_dict <- for_each (text_cell log_cell_error row) (enumerate col_names) [] ;;
     ret (append columns (VDict row_dict)))
    (fun e =>
       print (py "处理列信息时出错: " ++ exn_msg e) ;;
       try_except
         (name <- first_cell_or_unknown row ;;
          ret (append columns (VDict [(py "column_name", VStr name)])))
         (fun _ =>
            ret (append columns (VDict [(py "column_name", VStr (py "unknown"))])))).

(** The row loop of the second (simplified) tier of a two-tier query. *)
Definition simple_row (label key : pystr) (col_names : list pystr)
  (acc : list pyval) (row : Row) : M (list pyval) :=
  try_except
    (row_dict <- for_each (text_cell silently row) (enumerate col_names) [] ;;
     ret (append acc (VDict (default_description row_dict))))
    (fun e =>
       print (label ++ exn_msg e) ;;
       name <- first_cell_or_unknown row ;;
       ret (append acc (VDict [(key, VStr name)]))).

Definition count_text (l : list pyval) : pystr :=
  str_of_Z (Z.of_nat (List.length l)).

(** The columns sub-query of [get_table_structure], both tiers. *)
Definition fetch_columns (engine : option Engine) (table_name schema : pystr)
  : M (list pyval) :=
  try_except
    (connect engine ;;
     print (py "尝试执行带有列描述的查询...") ;;
     columns_result <- execute (columns_sql table_name schema) ;;
     let col_names := keys columns_result in
     columns <- for_cursor (rich_column_row col_names) columns_result [] ;;
     print (py "获取到 " ++ count_text columns ++ py " 个列信息") ;;
     ret columns)
    (fun complex_query_error =>
       print (py "复杂列查询失败，尝试简化查询: " ++ exn_msg complex_query_error) ;;
       connect engine ;;
       print (py "执行简化的列查询...") ;;
       columns_result <- execute (simple_columns_sql table_name schema) ;;
       let col_names := keys columns_result in
       columns <- for_cursor
                    (simple_row (py "处理简化列信息时出错: ") (py "column_name") col_names)
                    columns_result [] ;;
       print (py "获取到 " ++ count_text columns ++ py " 个列信息") ;;
       ret columns).

(** One of the three single-tier sub-queries of [get_table_structure]. *)
Definition fetch_plain (engine : option Engine) (sql label key : pystr)
  : M (list pyval) :=
  connect engine ;;
  result <- execute sql ;;
  for_cursor (plain_row label key (keys result)) result [].

Definition get_table_structure (table_name schema : pystr) : M pyval :=
  try_except
    (print (py "获取表结构信息: " ++ schema ++ py "." ++ table_name) ;;
     engine <- get_db_connection ;;
     columns <- fetch_columns engine table_name schema ;;
     primary_keys <- fetch_plain engine (pk_sql table_name schema)
                       (py "处理主键信息时出错: ") (py "column_name") ;;
     print (py "获取到 " ++ count_text primary_keys ++ py " 个主键信息") ;;
     foreign_keys <- fetch_plain engine (fk_sql table_name schema)
                       (py "处理外键信息时出错: ") (py "fk_name") ;;
     print (py "获取到 " ++ count_text foreign_keys ++ py " 个外键信息") ;;
     indexes <- fetch_plain engine (index_sql table_name schema)
                  (py "处理索引信息时出错: ") (py "index_name") ;;
     print (py "获取到 " ++ count_text indexes ++ py " 个索引信息") ;;
     print (py "表结构信息获取成功: " ++ schema ++ py "." ++ table_name) ;;
     ret (VDict [(py "columns", VList columns);
                 (py "primary_keys", VList primary_keys);
                 (py "foreign_keys", VList foreign_keys);
                 (py "indexes", VList indexes)]))
    (fun e =>
       let error_msg := py "获取表结构失败: " ++ exn_msg e in
       print (error_msg ++ py ", 表: " ++ schema ++ py "." ++ table_name) ;;
       ret (VDict [(py "error", VStr (exn_msg e));
                   (py "table", VStr table_name);
                   (py "schema", VStr schema)])).

(** The row loop of the first (rich) tier of [list_tables]. *)
Definition rich_table_row (col_names : list pystr) (tables : list pyval)
  (row : Row) : M (list pyval) :=
  try_except
    (row_dict <- for_each (text_cell log_cell_error row) (enumerate col_names) [] ;;
     ret (append tables (VDict row_dict)))
    (fun e =>
       print (py "处理表信息时出错: " ++ exn_msg e) ;;
       name <- first_cell_or_unknown row ;;
       ret (append tables (VDict [(py "table_name", VStr name)]))).

(** The two tiers of [list_tables]. *)
Definition fetch_tables (engine : option Engine) (schema : pystr)
  : M (list pyval) :=
  try_except
    (connect engine ;;
     print (py "尝试执行带有表描述的查询...") ;;
     result <- execute (list_tables_sql schema) ;;
     let col_names := keys result in
     for_cursor (rich_table_row col_names) result [])
    (fun complex_query_error =>
       print (py "复杂查询失败，尝试简单查询: " ++ exn_msg complex_query_error) ;;
       connect engine ;;
       print (py "执行简化的表查询...") ;;
       result <- execute (list_tables_simple_sql schema) ;;
       let col_names := keys result in
       for_cursor
         (simple_row (py "处理简化表信息时出错: ") (py "table_name") col_names)
         result []).

Definition list_tables (schema : pystr) : M pyval :=
  try_except
    (print (py "列出架构 '" ++ schema ++ py "' 中的所有表") ;;
     engine <- get_db_connection ;;
     tables <- fetch_tables engine schema ;;
     print (py "成功获取 " ++ count_text tables ++ py " 个表") ;;
     ret (VDict [(py "tables", VList tables);
                 (py "count", VInt (Z.of_nat (List.length tables)))]))
    (fun e =>
       let error_msg := py "列出表失败: " ++ exn_msg e in
       print (error_msg ++ py ", 架构: " ++ schema) ;;
       ret (VDict [(py "error", VStr (exn_msg e)); (py "schema", VStr schema)])).

(** [result[0] if result else None] for the row of [fetchone()]. *)
Definition first_or_none (result : option Row) : M dbval :=
  match result with
  | Some row =>
      match cells row with
      | [] => ret DNone
      | _ :: _ => lift (row_get row 0)
      end
  | None => ret DNone
  end.

(** An environment variable as a value of the answer. *)
Definition env_value (o : option pystr) : pyval :=
  match o with Some s => VStr s | None => VNone end.

Definition version_sql : pystr := py "SELECT @@VERSION AS version".
Definition db_name_sql : pystr := py "SELECT DB_NAME() AS database_name".
Definition schema_sql : pystr :=
  py "SELECT name AS schema_name FROM sys.schemas ORDER BY name".

Definition get_database_info : M pyval :=
  try_except
    (print (py "获取数据库基本信息") ;;
     engine <- get_db_connection ;;
     connect engine ;;
     c <- execute version_sql ;;
     version_result <- fetchone c ;;
     version_info <- first_or_none version_result ;;
     c <- execute db_name_sql ;;
     db_name_result <- fetchone c ;;
     database_name <- first_or_none db_name_result ;;
     schema_result <- execute schema_sql ;;
     schemas <- for_cursor
                  (fun schemas row =>
                     v <- lift (row_get row 0) ;; ret (append schemas (VAtom v)))
                  schema_result [] ;;
     print (py "成功获取数据库信息: " ++ py_str database_name) ;;
     ret (VDict [(py "database_name", VAtom database_name);
                 (py "version", VAtom version_info);
                 (py "schemas", VList schemas);
                 (py "connection",
                  VDict [(py "host", env_value (DB_HOST cfg));
                         (py "port", env_value (DB_PORT cfg));
                         (py "database", env_value (DB_NAME cfg));
                         (py "user", env_value (DB_USER cfg))])]))
    (fun e =>
       let error_msg := py "获取数据库信息失败: " ++ exn_msg e in
       print error_msg ;;
       ret (VDict [(py "error", VStr (exn_msg e))])).

End Server.

(** The error value of [query_sql]. *)
Definition query_error (msg sql : pystr) : pyval :=
  VDict [(py "error", VStr msg); (py "sql", VStr sql)].


(* ================================================================== *)
(** ** Vocabulary of the statements *)

(** What a cell contributes to a materialized row: its value, or [None]
    when reading it raises. *)
Definition cell_of (row : Row) (i : nat) : pyval :=
  match row_get row i with
  | Ok v => VAtom v
  | Raise _ => VNone
  end.

(** The mapping obtained by storing the cells under their column names,
    one after the other. *)
Fixpoint set_cells (ics : list (nat * pystr)) (row : Row) (d : dict) : dict :=
  match ics with
  | [] => d
  | (i, col) :: rest => set_cells rest row (dict_set d col (cell_of row i))
  end.

Definition row_mapping (columns : list pystr) (row : Row) : dict :=
  set_cells (enumerate columns) row [].

(** Among the first [width] cells of [row], cell [i] is the only one whose
    access raises. *)
Definition only_bad_cell (row : Row) (width i : nat) : Prop :=
  (i < width)%nat
  /\ (exists e, row_get row i = Raise e)
  /\ (forall j, (j < width)%nat -> j <> i -> exists v, row_get row j = Ok v).

(** Column [j] is called [col] and no later column repeats that name (a
    later column of the same name takes the key of the mapping). *)
Definition names_key (columns : list pystr) (j : nat) (col : pystr) : Prop :=
  nth_error columns j = Some col /\ ~ In col (skipn (S j) columns).

(** The statement [sql] cannot be run to its last row: executing it
    raises, or fetching from its cursor does. *)
Definition query_fails (W : World) (sql : pystr) : Prop :=
  match execute_outcome W sql with
  | Raise _ => True
  | Ok c => fetch_error c <> None
  end.

(** The error value of [get_table_structure]. *)
Definition structure_error (msg table_name schema : pystr) : pyval :=
  VDict [(py "error", VStr msg); (py "table", VStr table_name);
         (py "schema", VStr schema)].

(** [result[k]] of what a tool returned, when it returned a mapping with
    that key. *)
Definition result_field (r : res pyval * State) (k : pystr) : option pyval :=
  match fst r with
  | Ok (VDict d) => dict_get d k
  | _ => None
  end.

(* ================================================================== *)
(** ** Sample stores and configurations *)

(** Case tables that leave non-ASCII text alone; the sample inputs are
    ASCII and never reach them. *)
Definition identity_lower (s : pystr) : pystr := s.

Definition cfg_sample : Config :=
  mk_config (Some (py "db.example")) (Some (py "sa")) (Some (py "s3cret"))
    (Some (py "Sales")) (Some (py "1433")).

Definition bad_cell : res dbval :=
  Raise (mk_exn false (py "cannot convert") None).

(** Two columns, two rows; the second cell of the second row cannot be
    read. *)
Definition sample_cursor : Cursor :=
  mk_cursor [py "a"; py "b"]
    [mk_row [Ok (DInt 1); Ok (DStr (py "x"))] (py "(1, 'x')");
     mk_row [Ok (DInt 2); bad_cell] (py "(2, ?)")]
    None.

(** A store that accepts every statement and answers [sample_cursor]. *)
Definition W_ok : World :=
  mk_world (fun _ => None) None (fun _ => Ok sample_cursor).

Definition OperationalError : exn :=
  mk_exn true (py "(pyodbc.OperationalError) Login timeout expired")
    (Some (mk_orig (py "Login timeout expired") (Some (py "('HYT00', 'Login timeout expired')")))).

(** A store that cannot be reached: the engine is built, connecting to it
    times out. *)
Definition W_unreachable : World :=
  mk_world (fun _ => None) (Some OperationalError) (fun _ => Raise OperationalError).

(** A statement whose second line is the single word [drop]:
    select 1 / drop / table users, separated by line feeds. *)
Definition newline_drop : pystr :=
  py "select 1" ++ [10] ++ py "drop" ++ [10] ++ py "table users".

(** A row loop body that never raises and appends one entry. *)
Definition appends_one (body : list pyval -> Row -> M (list pyval)) : Prop :=
  forall acc row st,
    exists acc' st',
      body acc row st = (Ok acc', st')
      /\ List.length acc' = S (List.length acc).

Definition ProgrammingError : exn :=
  mk_exn true (py "(pyodbc.ProgrammingError) 'STRING_AGG' is not a recognized built-in function name.")
    None.

Definition empty_cursor (names : list pystr) : Cursor := mk_cursor names [] None.

(** A SQL Server 2016 instance: it has no [STRING_AGG], so the index query
    is refused; every other statement runs and finds nothing. *)
Definition W_2016 : World :=
  mk_world (fun _ => None) None
    (fun sql =>
       if contains (py "STRING_AGG") sql then Raise ProgrammingError
       else Ok (empty_cursor [py "column_name"])).

(** The [rows] that [query_sql] builds from [sample_cursor]. *)
Definition sample_rows : list pyval :=
  [VDict [(py "a", VInt 1); (py "b", VStr (py "x"))];
   VDict [(py "a", VInt 2); (py "b", VNone)]].

(** An edition without extended properties: a statement that joins
    [sys.extended_properties] is refused, every other one runs and finds
    nothing. *)
Definition W_no_description : World :=
  mk_world (fun _ => None) None
    (fun sql =>
       if contains (py "sys.extended_properties") sql then Raise ProgrammingError
       else Ok (empty_cursor [py "table_name"; py "schema_name"])).

Definition sample_engine : Engine :=
  mk_engine (CONNECTION_STRING cfg_sample) true 3600 30.

(** The first error of the connection probe of [get_db_connection]
    (connect, run [SELECT 1], fetch one row), if there is one. *)
Definition probe_error (W : World) : option exn :=
  match connect_outcome W with
  | Some e => Some e
  | None =>
      match execute_outcome W (py "SELECT 1") with
      | Raise e => Some e
      | Ok c => match cur_rows c with [] => fetch_error c | _ :: _ => None end
      end
  end.

(** The error the caller of [get_db_connection] sees for a failure [e]: a
    [SQLAlchemyError] is replaced by [Exception("数据库连接失败: ...")], any
    other exception passes through. *)
Definition surfaced_error (e : exn) : exn :=
  if exn_sqlalchemy e
  then mk_exn false (py "数据库连接失败: " ++ exn_msg e) None
  else e.

(* ================================================================== *)
(** ** Vocabulary of the further properties *)

(** Every run of [m] takes the process from a state to one related to it
    by [R], whether it returns or raises. *)
Definition respects {A} (R : State -> State -> Prop) (m : M A) : Prop :=
  forall st r st', m st = (r, st') -> R st st'.

(** The store has seen, since [st], only events that satisfy [P]. *)
Definition emitted_only (P : db_event -> Prop) (st st' : State) : Prop :=
  exists evs, db_trace st' = db_trace st ++ evs /\ Forall P evs.

(** If an engine was memoized in [st], it is still the memoized engine in
    [st'] and no engine has been created since. *)
Definition engine_kept (st st' : State) : Prop :=
  forall eng,
    engine st = Some eng ->
    engine st' = Some eng
    /\ exists evs,
         db_trace st' = db_trace st ++ evs
         /\ forall u, ~ In (CreateEngine u) evs.

(** The event is not a statement, or is one of [allowed]. *)
Definition executes_within (allowed : list pystr) (ev : db_event) : Prop :=
  match ev with
  | Execute q => In q allowed
  | _ => True
  end.

(** The text an introspection tool stores for cell [i] of [row]: the empty
    string for [None] and for a cell that cannot be read, [str(value)]
    otherwise. *)
Definition cell_text (row : Row) (i : nat) : pystr :=
  match row_get row i with
  | Ok DNone => py ""
  | Ok v => py_str v
  | Raise _ => py ""
  end.

(** The mapping obtained by storing [value i] under the name of column
    [i], one column after the other. *)
Fixpoint store_cells (value : nat -> pyval) (ics : list (nat * pystr)) (d : dict)
  : dict :=
  match ics with
  | [] => d
  | (i, col) :: rest => store_cells value rest (dict_set d col (value i))
  end.

(** A row as the introspection tools return it. *)
Definition text_mapping (columns : list pystr) (row : Row) : dict :=
  store_cells (fun i => VStr (cell_text row i)) (enumerate columns) [].

(** The value [get_database_info] reads from the first row of a cursor:
    its first cell, or [None] when there is no row or the row is empty. *)
Definition first_value (c : Cursor) : res dbval :=
  match cur_rows c with
  | [] => match fetch_error c with Some e => Raise e | None => Ok DNone end
  | row :: _ =>
      match cells row with
      | [] => Ok DNone
      | _ :: _ => row_get row 0
      end
  end.

(** A process in which the engine is already memoized. *)
Definition memoized_state : State := mk_state (Some sample_engine) [] [].

(** A row loop body that never raises and appends [f row]. *)
Definition appends (f : Row -> pyval)
  (body : list pyval -> Row -> M (list pyval)) : Prop :=
  forall acc row st, exists st', body acc row st = (Ok (acc ++ [f row]), st').

(** The mapping [d] stands for [row] under the column names [names]: its
    keys are the names, and the key of each column holds the text of the
    row's cell. *)
Definition text_entry (names : list pystr) (row : Row) (d : dict) : Prop :=
  (forall k, In k (dict_keys d) <-> In k names)
  /\ (forall j col, names_key names j col ->
        dict_get d col = Some (VStr (cell_text row j))).

(** As [text_entry], with a [description] key added, empty when the
    cursor has no column of that name. *)
Definition text_entry_described (names : list pystr) (row : Row) (d : dict)
  : Prop :=
  (forall k, In k (dict_keys d) <-> In k names \/ k = py "description")
  /\ (forall j col, names_key names j col ->
        dict_get d col = Some (VStr (cell_text row j)))
  /\ (~ In (py "description") names ->
      dict_get d (py "description") = Some (VStr (py ""))).

(** The list [l] has one mapping per row of [rows], in the same order,
    each standing for its row. *)
Definition entries (entry : Row -> dict -> Prop) (rows : list Row)
  (l : list pyval) : Prop :=
  List.length l = List.length rows
  /\ forall n row,
       nth_error rows n = Some row ->
       exists d, nth_error l n = Some (VDict d) /\ entry row d.

(** A store in which every statement runs and finds nothing. *)
Definition W_empty : World :=
  mk_world (fun _ => None) None (fun _ => Ok (empty_cursor [py "name"])).

(** A store that refuses every statement. *)
Definition W_refusing : World :=
  mk_world (fun _ => None) None (fun _ => Raise ProgrammingError).

(** A cursor that names both of its columns [id]. *)
Definition twin_cursor : Cursor :=
  mk_cursor [py "id"; py "id"]
    [mk_row [Ok (DInt 1); Ok (DInt 2)] (py "(1, 2)")] None.

Definition W_twin : World :=
  mk_world (fun _ => None) None (fun _ => Ok twin_cursor).

(** One table, [Orders], without a description. *)
Definition orders_cursor : Cursor :=
  mk_cursor [py "table_name"; py "schema_name"]
    [mk_row [Ok (DStr (py "Orders")); Ok DNone] (py "('Orders', None)")] None.

(** An edition without extended properties that knows one table: a
    statement that joins [sys.extended_properties] is refused, every other
    one answers [orders_cursor]. *)
Definition W_catalog : World :=
  mk_world (fun _ => None) None
    (fun sql =>
       if contains (py "sys.extended_properties") sql then Raise ProgrammingError
       else Ok orders_cursor).

(** A cursor whose second row cannot be read at its first cell. *)
Definition broken_cursor : Cursor :=
  mk_cursor [py "schema_name"]
    [mk_row [Ok (DStr (py "dbo"))] (py "('dbo',)");
     mk_row [bad_cell] (py "(?,)");
     mk_row [Ok (DStr (py "sys"))] (py "('sys',)")] None.

Definition W_broken : World :=
  mk_world (fun _ => None) None (fun _ => Ok broken_cursor).

(** [cfg_sample] with another password. *)
Definition cfg_other_password : Config :=
  mk_config (Some (py "db.example")) (Some (py "sa")) (Some (py "hunter2"))
    (Some (py "Sales")) (Some (py "1433")).

Arguments py : simpl never.
Arguments str_of_Z : simpl never.

(* ================================================================== *)
(** ** Strings *)

Example py_ascii : py "select" = [115; 101; 108; 101; 99; 116].
Proof. reflexivity. Qed.

Example py_cjk : py "安全" = [23433; 20840].
Proof. reflexivity. Qed.

Example strip_unicode_space : strip (160 :: py "  a b " ++ [10; 12288]) = py "a b".
Proof. reflexivity. Qed.

Example contains_word : contains (py " drop ") (py " select 1; drop table t ") = true.
Proof. reflexivity. Qed.

(* ================================================================== *)
(** ** Reasoning about the monad *)

Lemma bind_ok {A B} (m : M A) (k : A -> M B) st a st1 :
  m st = (Ok a, st1) -> bind m k st = k a st1.
Proof. intros H. unfold bind. rewrite H. reflexivity. Qed.

Lemma bind_raise {A B} (m : M A) (k : A -> M B) st e st1 :
  m st = (Raise e, st1) -> bind m k st = (Raise e, st1).
Proof. intros H. unfold bind. rewrite H. reflexivity. Qed.

Lemma bind_ok_inv {A B} (m : M A) (k : A -> M B) st b st' :
  bind m k st = (Ok b, st') ->
  exists a st1, m st = (Ok a, st1) /\ k a st1 = (Ok b, st').
Proof.
  unfold bind. destruct (m st) as [[a | e] st1]; intros H.
  - exists a, st1. split; [reflexivity | exact H].
  - discriminate H.
Qed.

Lemma try_except_ok {A} (m : M A) (h : exn -> M A) st a st1 :
  m st = (Ok a, st1) -> try_except m h st = (Ok a, st1).
Proof. intros H. unfold try_except. rewrite H. reflexivity. Qed.

Lemma try_except_raise {A} (m : M A) (h : exn -> M A) st e st1 :
  m st = (Raise e, st1) -> try_except m h st = h e st1.
Proof. intros H. unfold try_except. rewrite H. reflexivity. Qed.

(* ================================================================== *)
(** ** The query guard *)

Section Guard.

Variable unicode_lower : pystr -> pystr.
Variable cfg : Config.
Variable W : World.

(** C1. A text whose lower-cased, stripped form does not start with
    [select] is answered with the error mapping
    [{"error": ..., "sql": sql}] holding the text unchanged, and nothing is
    sent to the store. *)
Theorem query_sql_rejects_non_select (sql : pystr) (st : State) :
  startswith (py "select") (strip (lower unicode_lower sql)) = false ->
  exists st',
    query_sql unicode_lower cfg W sql st
    = (Ok (VDict [(py "error", VStr (py "安全限制：只允许执行SELECT语句"));
                  (py "sql", VStr sql)]), st')
    /\ db_trace st' = db_trace st.
Proof.
  intros H.
  unfold query_sql, try_except, bind, print, ret.
  rewrite H. cbn [negb fst snd engine stdout db_trace].
  eexists. split; reflexivity.
Qed.

(** C9. A text the guard rejects (no leading [select], or a deny-listed
    keyword found by the scan) is answered with the error mapping while
    the module-level [engine] and the trace of the store stay as they
    were. *)
Theorem query_sql_rejected_keeps_engine (sql : pystr) (st : State) :
  startswith (py "select") (strip (lower unicode_lower sql)) = false
  \/ (exists keyword, In keyword dangerous_keywords
        /\ keyword_in (strip (lower unicode_lower sql)) keyword = true) ->
  exists msg st',
    query_sql unicode_lower cfg W sql st = (Ok (query_error msg sql), st')
    /\ engine st' = engine st
    /\ db_trace st' = db_trace st.
Proof.
  intros H.
  destruct (startswith (py "select") (strip (lower unicode_lower sql))) eqn:Hs.
  - destruct H as [H | (keyword & Hin & Hk)]; [discriminate H|].
    destruct (find (keyword_in (strip (lower unicode_lower sql))) dangerous_keywords)
      as [k|] eqn:Hf.
    + unfold query_sql, try_except, bind, print, ret.
      rewrite Hs, Hf. cbn [negb fst snd engine stdout db_trace].
      eexists _, _. split; [reflexivity | split; reflexivity].
    + exfalso. apply (find_none _ _ Hf) in Hin. congruence.
  - unfold query_sql, try_except, bind, print, ret.
    rewrite Hs. cbn [negb fst snd engine stdout db_trace].
    eexists _, _. split; [reflexivity | split; reflexivity].
Qed.

End Guard.

(* ================================================================== *)
(** ** Dictionaries *)

Lemma eqb_eq (a b : pystr) : PyStr.eqb a b = true <-> a = b.
Proof.
  unfold PyStr.eqb. destruct (list_eq_dec N.eq_dec a b); split; congruence.
Qed.

Lemma eqb_refl (a : pystr) : PyStr.eqb a a = true.
Proof. apply eqb_eq. reflexivity. Qed.

Lemma eqb_neq (a b : pystr) : a <> b -> PyStr.eqb a b = false.
Proof.
  intros H. destruct (PyStr.eqb a b) eqn:E; [|reflexivity].
  apply eqb_eq in E. contradiction.
Qed.

Lemma dict_get_set_same (d : dict) k v : dict_get (dict_set d k v) k = Some v.
Proof.
  induction d as [|[k' v'] t IH]; simpl.
  - rewrite eqb_refl. reflexivity.
  - destruct (PyStr.eqb k' k) eqn:E; simpl; rewrite E; [reflexivity | exact IH].
Qed.

Lemma dict_get_set_other (d : dict) k v k' :
  k <> k' -> dict_get (dict_set d k v) k' = dict_get d k'.
Proof.
  intros Hne. induction d as [|[k0 v0] t IH]; simpl.
  - rewrite (eqb_neq _ _ Hne). reflexivity.
  - destruct (PyStr.eqb k0 k) eqn:E; simpl.
    + apply eqb_eq in E. subst k0. rewrite (eqb_neq _ _ Hne). reflexivity.
    + rewrite IH. reflexivity.
Qed.

Lemma dict_keys_set (d : dict) k v k' :
  In k' (dict_keys (dict_set d k v)) <-> k' = k \/ In k' (dict_keys d).
Proof.
  unfold dict_keys. induction d as [|[k0 v0] t IH]; simpl.
  - intuition congruence.
  - destruct (PyStr.eqb k0 k) eqn:E; simpl.
    + apply eqb_eq in E. subst k0. intuition congruence.
    + rewrite IH. intuition congruence.
Qed.

Lemma dict_keys_set_nodup (d : dict) k v :
  NoDup (dict_keys d) -> NoDup (dict_keys (dict_set d k v)).
Proof.
  unfold dict_keys. induction d as [|[k0 v0] t IH]; simpl; intros Hnd.
  - constructor; [intros [] | constructor].
  - inversion Hnd as [|? ? Hnot Hnd']; subst.
    destruct (PyStr.eqb k0 k) eqn:E; simpl.
    + constructor; assumption.
    + constructor; [|apply IH; exact Hnd'].
      intros Hin. apply (dict_keys_set t k v k0) in Hin.
      destruct Hin as [Heq | Hin]; [|contradiction].
      subst k0. rewrite eqb_refl in E. discriminate E.
Qed.

Lemma set_cells_app ics1 ics2 row d :
  set_cells (ics1 ++ ics2) row d = set_cells ics2 row (set_cells ics1 row d).
Proof.
  revert d. induction ics1 as [|[i col] t IH]; intros d; simpl;
    [reflexivity | apply IH].
Qed.

Lemma set_cells_keys ics row d k :
  In k (dict_keys (set_cells ics row d)) <-> In k (dict_keys d) \/ In k (map snd ics).
Proof.
  revert d. induction ics as [|[i col] t IH]; intros d; simpl.
  - tauto.
  - rewrite IH, dict_keys_set. intuition.
Qed.

Lemma set_cells_nodup ics row d :
  NoDup (dict_keys d) -> NoDup (dict_keys (set_cells ics row d)).
Proof.
  revert d. induction ics as [|[i col] t IH]; intros d Hnd; simpl.
  - exact Hnd.
  - apply IH, dict_keys_set_nodup, Hnd.
Qed.

Lemma set_cells_get_other ics row d k :
  ~ In k (map snd ics) -> dict_get (set_cells ics row d) k = dict_get d k.
Proof.
  revert d. induction ics as [|[i col] t IH]; intros d Hnot; simpl.
  - reflexivity.
  - simpl in Hnot. rewrite IH by tauto.
    apply dict_get_set_other. intros Heq. apply Hnot. left. exact Heq.
Qed.

Lemma enumerate_split {A} (l : list A) (s j : nat) (a : A) :
  nth_error l j = Some a ->
  exists pre post,
    combine (seq s (List.length l)) l = pre ++ (s + j, a)%nat :: post
    /\ map snd post = skipn (S j) l.
Proof.
  revert s j. induction l as [|x t IH]; intros s j Hn.
  - destruct j; discriminate Hn.
  - destruct j as [|j]; simpl in Hn.
    + injection Hn as ->. exists [], (combine (seq (S s) (List.length t)) t).
      split.
      * simpl. rewrite Nat.add_0_r. reflexivity.
      * simpl. clear IH. generalize (S s). induction t as [|y t IHt]; intros n; simpl;
          [reflexivity | f_equal; apply IHt].
    + destruct (IH (S s) j Hn) as (pre & post & Hc & Hp).
      exists ((s, x) :: pre), post. split.
      * simpl. rewrite Hc. rewrite Nat.add_succ_r. reflexivity.
      * exact Hp.
Qed.

(** The key of column [j] holds cell [j] in the mapping of a row. *)
Lemma row_mapping_get (columns : list pystr) (row : Row) (j : nat) (col : pystr) :
  names_key columns j col ->
  dict_get (row_mapping columns row) col = Some (cell_of row j).
Proof.
  intros [Hn Hlast]. unfold row_mapping, enumerate.
  destruct (enumerate_split columns 0 j col Hn) as (pre & post & Hc & Hp).
  rewrite Hc. simpl. rewrite set_cells_app. simpl.
  rewrite set_cells_get_other by (rewrite Hp; exact Hlast).
  apply dict_get_set_same.
Qed.

(** With distinct column names every column has its own key. *)
Lemma distinct_names_key (columns : list pystr) (j : nat) (col : pystr) :
  NoDup columns -> nth_error columns j = Some col -> names_key columns j col.
Proof.
  intros Hnd Hn. split; [exact Hn|].
  revert j Hn. induction Hnd as [|x t Hnot Hnd IH]; intros j Hn.
  - destruct j; discriminate Hn.
  - destruct j as [|j]; simpl in *.
    + injection Hn as <-. exact Hnot.
    + apply (IH j Hn).
Qed.

Lemma enumerate_names {A} (l : list A) : map snd (enumerate l) = l.
Proof.
  unfold enumerate. generalize 0%nat. induction l as [|x t IH]; intros n; simpl;
    [reflexivity | f_equal; apply IH].
Qed.

Lemma row_mapping_keys (columns : list pystr) (row : Row) (k : pystr) :
  In k (dict_keys (row_mapping columns row)) <-> In k columns.
Proof.
  unfold row_mapping. rewrite set_cells_keys, enumerate_names. simpl. tauto.
Qed.

Lemma row_mapping_nodup (columns : list pystr) (row : Row) :
  NoDup (dict_keys (row_mapping columns row)).
Proof. apply set_cells_nodup. constructor. Qed.

(* ================================================================== *)
(** ** The result materializer *)

Lemma dict_comprehension_ok ics row d d' :
  dict_comprehension ics row d = Ok d' -> d' = set_cells ics row d.
Proof.
  revert d. induction ics as [|[i col] t IH]; intros d H; simpl in *.
  - congruence.
  - unfold cell_of. destruct (row_get row i) as [v | e]; [apply IH, H | discriminate H].
Qed.

(** The second attempt never raises: the last-resort branch
    [{"value": str(row)}] is not taken. *)
Lemma cell_or_none_loop ics row d st :
  for_each (cell_or_none row) ics d st = (Ok (set_cells ics row d), st).
Proof.
  revert d. induction ics as [|[i col] t IH]; intros d; simpl.
  - reflexivity.
  - unfold bind at 1. unfold cell_or_none, try_except, bind, lift, ret, cell_of.
    destruct (row_get row i) as [v | e]; apply IH.
Qed.

Lemma materialize_row_spec columns acc row st :
  exists st',
    materialize_row columns acc row st
    = (Ok (acc ++ [VDict (row_mapping columns row)]), st').
Proof.
  unfold materialize_row, try_except at 1, bind at 1, lift.
  destruct (dict_comprehension (enumerate columns) row []) as [d | e] eqn:Hd.
  - apply dict_comprehension_ok in Hd. subst d. eexists. reflexivity.
  - unfold bind at 1, print. unfold try_except, bind.
    rewrite cell_or_none_loop. eexists. reflexivity.
Qed.

Lemma materialize_rows_spec columns rows acc st :
  exists st',
    for_each (materialize_row columns) rows acc st
    = (Ok (acc ++ map (fun row => VDict (row_mapping columns row)) rows), st').
Proof.
  revert acc st. induction rows as [|row t IH]; intros acc st; simpl.
  - exists st. rewrite app_nil_r. reflexivity.
  - destruct (materialize_row_spec columns acc row st) as (st1 & H1).
    rewrite (bind_ok _ _ _ _ _ H1).
    destruct (IH (acc ++ [VDict (row_mapping columns row)]) st1) as (st2 & H2).
    exists st2. rewrite H2, <- app_assoc. reflexivity.
Qed.

Section Materializer.

Variable unicode_lower : pystr -> pystr.
Variable cfg : Config.
Variable W : World.

(** What [query_sql] returns: the error mapping, or the columns of the
    cursor with one mapping per row of the cursor. *)
Lemma query_sql_shape (sql : pystr) (st : State) :
  exists st',
    (exists msg, query_sql unicode_lower cfg W sql st = (Ok (query_error msg sql), st'))
    \/ (exists c,
          execute_outcome W sql = Ok c
          /\ query_sql unicode_lower cfg W sql st
             = (Ok (VDict
                      [(py "columns", VList (map VStr (keys c)));
                       (py "rows",
                        VList (map (fun row => VDict (row_mapping (keys c) row))
                                 (cur_rows c)));
                       (py "row_count",
                        VInt (Z.of_nat (List.length
                           (map (fun row => VDict (row_mapping (keys c) row))
                              (cur_rows c)))))]), st')).
Proof.
  unfold query_sql.
  match goal with |- context [try_except ?b ?h] => set (body := b); set (handler := h) end.
  destruct (body st) as [[v | e] st1] eqn:Hb.
  2:{ exists (snd (handler e st1)). left. exists (exn_msg e).
      rewrite (try_except_raise _ _ _ _ _ Hb). reflexivity. }
  exists st1. rewrite (try_except_ok _ _ _ _ _ Hb).
  subst body. apply bind_ok_inv in Hb. destruct Hb as ([] & st2 & _ & Hb).
  destruct (negb (startswith (py "select") (strip (lower unicode_lower sql)))).
  { left. eexists. unfold bind, print, ret in Hb. injection Hb as <- <-. reflexivity. }
  destruct (find (keyword_in (strip (lower unicode_lower sql))) dangerous_keywords).
  { left. eexists. unfold bind, print, ret in Hb. injection Hb as <- <-. reflexivity. }
  apply bind_ok_inv in Hb. destruct Hb as (eng & st3 & _ & Hb).
  apply bind_ok_inv in Hb. destruct Hb as ([] & st4 & _ & Hb).
  apply bind_ok_inv in Hb. destruct Hb as (c & st5 & Hex & Hb).
  apply bind_ok_inv in Hb. destruct Hb as (rows & st6 & Hrows & Hb).
  right. exists c. split.
  - unfold execute, bind, emit, lift in Hex. injection Hex as Hex _. exact Hex.
  - unfold for_cursor in Hrows.
    apply bind_ok_inv in Hrows. destruct Hrows as (rows' & st7 & Hloop & Hend).
    destruct (materialize_rows_spec (keys c) (cur_rows c) [] st5) as (st8 & Hspec).
    rewrite Hspec in Hloop. injection Hloop as <- <-.
    destruct (fetch_error c); [discriminate Hend|].
    unfold ret in Hend. injection Hend as <- <-.
    unfold bind, print, ret in Hb. injection Hb as <- <-. reflexivity.
Qed.

Lemma error_has_no_rows msg sql k :
  k = py "rows" \/ k = py "columns" \/ k = py "row_count" ->
  dict_get [(py "error", VStr msg); (py "sql", VStr sql)] k = None.
Proof. intros [-> | [-> | ->]]; reflexivity. Qed.

Lemma result_rows_field a b c :
  dict_get [(py "columns", a); (py "rows", b); (py "row_count", c)] (py "rows")
  = Some b.
Proof. reflexivity. Qed.

Lemma result_columns_field a b c :
  dict_get [(py "columns", a); (py "rows", b); (py "row_count", c)] (py "columns")
  = Some a.
Proof. reflexivity. Qed.

Lemma result_row_count_field a b c :
  dict_get [(py "columns", a); (py "rows", b); (py "row_count", c)] (py "row_count")
  = Some c.
Proof. reflexivity. Qed.

(** The fields of a successful answer of [query_sql], read back. *)
Lemma query_sql_fields (sql : pystr) (st : State) (rows : list pyval) :
  result_field (query_sql unicode_lower cfg W sql st) (py "rows") = Some (VList rows) ->
  exists c,
    execute_outcome W sql = Ok c
    /\ rows = map (fun row => VDict (row_mapping (keys c) row)) (cur_rows c)
    /\ result_field (query_sql unicode_lower cfg W sql st) (py "columns")
       = Some (VList (map VStr (keys c)))
    /\ result_field (query_sql unicode_lower cfg W sql st) (py "row_count")
       = Some (VInt (Z.of_nat (List.length rows))).
Proof.
  intros Hrows.
  destruct (query_sql_shape sql st) as (st' & [(msg & H) | (c & Hex & H)]);
    rewrite H in *; unfold result_field in *; cbn [fst] in *.
  - unfold query_error in Hrows. rewrite error_has_no_rows in Hrows by auto.
    discriminate Hrows.
  - rewrite result_rows_field in Hrows. injection Hrows as <-.
    exists c. rewrite result_columns_field, result_row_count_field. auto.
Qed.

(** C5. Whatever the cursor of the statement holds, the [row_count] of
    the answer is the number of entries of its [rows], and that is the
    number of rows of the cursor. *)
Theorem query_sql_row_count (sql : pystr) (st : State) (c : Cursor)
  (rows : list pyval) :
  execute_outcome W sql = Ok c ->
  result_field (query_sql unicode_lower cfg W sql st) (py "rows") = Some (VList rows) ->
  result_field (query_sql unicode_lower cfg W sql st) (py "row_count")
  = Some (VInt (Z.of_nat (List.length rows)))
  /\ List.length rows = List.length (cur_rows c).
Proof.
  intros Hc Hrows.
  destruct (query_sql_fields sql st rows Hrows) as (c' & Hex & Hr & _ & Hn).
  rewrite Hc in Hex. injection Hex as <-.
  split; [exact Hn|]. rewrite Hr. apply length_map.
Qed.

(** C6. A row of the cursor in which one cell access raises is still
    there, at its place in [rows]; the key of every other cell holds that
    cell's value and the key of the failing cell holds [None]. *)
Theorem query_sql_keeps_row_with_bad_cell (sql : pystr) (st : State)
  (c : Cursor) (rows : list pyval) (n i : nat) (row : Row) :
  execute_outcome W sql = Ok c ->
  result_field (query_sql unicode_lower cfg W sql st) (py "rows") = Some (VList rows) ->
  nth_error (cur_rows c) n = Some row ->
  only_bad_cell row (List.length (keys c)) i ->
  List.length rows = List.length (cur_rows c)
  /\ exists row_dict,
       nth_error rows n = Some (VDict row_dict)
       /\ (forall j col, j <> i -> names_key (keys c) j col ->
             exists v, row_get row j = Ok v
                       /\ dict_get row_dict col = Some (VAtom v))
       /\ (forall col, names_key (keys c) i col ->
             dict_get row_dict col = Some VNone).
Proof.
  intros Hc Hrows Hn (Hi & (e & Hbad) & Hgood).
  destruct (query_sql_fields sql st rows Hrows) as (c' & Hex & Hr & _ & _).
  rewrite Hc in Hex. injection Hex as <-.
  split; [rewrite Hr; apply length_map|].
  exists (row_mapping (keys c) row). split; [|split].
  - rewrite Hr. rewrite nth_error_map, Hn. reflexivity.
  - intros j col Hji Hkey.
    assert (Hj : (j < List.length (keys c))%nat).
    { apply nth_error_Some. destruct Hkey as [Hk _]. rewrite Hk. discriminate. }
    destruct (Hgood j Hj Hji) as (v & Hv). exists v. split; [exact Hv|].
    rewrite (row_mapping_get _ _ _ _ Hkey). unfold cell_of. rewrite Hv. reflexivity.
  - intros col Hkey.
    rewrite (row_mapping_get _ _ _ _ Hkey). unfold cell_of. rewrite Hbad. reflexivity.
Qed.

(** C7. In a successful answer every entry of [rows] is a mapping whose
    keys are exactly the names listed in [columns]. *)
Theorem query_sql_rows_have_column_keys (sql : pystr) (st : State)
  (columns rows : list pyval) (r : pyval) :
  result_field (query_sql unicode_lower cfg W sql st) (py "columns")
  = Some (VList columns) ->
  result_field (query_sql unicode_lower cfg W sql st) (py "rows") = Some (VList rows) ->
  In r rows ->
  exists row_dict,
    r = VDict row_dict
    /\ NoDup (dict_keys row_dict)
    /\ forall k, In k (dict_keys row_dict) <-> In (VStr k) columns.
Proof.
  intros Hcols Hrows Hin.
  destruct (query_sql_fields sql st rows Hrows) as (c & _ & Hr & Hc & _).
  rewrite Hc in Hcols. injection Hcols as <-.
  rewrite Hr in Hin. apply in_map_iff in Hin. destruct Hin as (row & <- & _).
  exists (row_mapping (keys c) row). split; [reflexivity|].
  split; [apply row_mapping_nodup|].
  intros k. rewrite row_mapping_keys, in_map_iff. split.
  - intros Hk. exists k. auto.
  - intros (k' & Heq & Hk). injection Heq as ->. exact Hk.
Qed.

End Materializer.

(* ================================================================== *)
(** ** The connection provider *)

Ltac run_provider :=
  cbv beta iota delta
    [get_db_connection bind get_engine try_except_sqlalchemy print create_engine
     emit raise ret set_engine connect execute lift fetchone
     engine stdout db_trace].

Ltac run_provider_in H :=
  cbv beta iota delta
    [get_db_connection bind get_engine try_except_sqlalchemy print create_engine
     emit raise ret set_engine connect execute lift fetchone
     engine stdout db_trace] in H.

Ltac split_cases H :=
  repeat (match type of H with
          | context [match create_engine_outcome ?W ?u with _ => _ end] =>
              destruct (create_engine_outcome W u) eqn:?
          | context [match connect_outcome ?W with _ => _ end] =>
              destruct (connect_outcome W) eqn:?
          | context [match execute_outcome ?W ?q with _ => _ end] =>
              destruct (execute_outcome W q) eqn:?
          | context [match cur_rows ?c with _ => _ end] =>
              destruct (cur_rows c) eqn:?
          | context [match fetch_error ?c with _ => _ end] =>
              destruct (fetch_error c) eqn:?
          | context [if exn_sqlalchemy ?e then _ else _] =>
              destruct (exn_sqlalchemy e) eqn:?
          | context [match exn_orig ?e with _ => _ end] =>
              destruct (exn_orig e) eqn:?
          | context [match orig_args ?o with _ => _ end] =>
              destruct (orig_args o) eqn:?
          end; run_provider_in H).

Ltac split_goal :=
  repeat (match goal with
          | |- context [match create_engine_outcome ?W ?u with _ => _ end] =>
              destruct (create_engine_outcome W u)
          | |- context [match connect_outcome ?W with _ => _ end] =>
              destruct (connect_outcome W)
          | |- context [match execute_outcome ?W ?q with _ => _ end] =>
              destruct (execute_outcome W q)
          | |- context [match cur_rows ?c with _ => _ end] =>
              destruct (cur_rows c)
          | |- context [match fetch_error ?c with _ => _ end] =>
              destruct (fetch_error c)
          | |- context [if exn_sqlalchemy ?e then _ else _] =>
              destruct (exn_sqlalchemy e)
          | |- context [match exn_orig ?e with _ => _ end] =>
              destruct (exn_orig e)
          | |- context [match orig_args ?o with _ => _ end] =>
              destruct (orig_args o)
          end; run_provider).

(** Whenever the provider raises on a first acquisition, either
    [create_engine] failed and [engine] is still [None], or the engine was
    built and is now memoized. *)
Lemma get_db_connection_raise_cases (cfg : Config) (W : World) (st : State)
  (e : exn) (st' : State) :
  engine st = None ->
  get_db_connection cfg W st = (Raise e, st') ->
  (create_engine_outcome W (CONNECTION_STRING cfg) <> None /\ engine st' = None)
  \/ (create_engine_outcome W (CONNECTION_STRING cfg) = None
      /\ engine st' = Some (mk_engine (CONNECTION_STRING cfg) true 3600 30)
      /\ forall W', get_db_connection cfg W' st' = (Ok (engine st'), st')).
Proof.
  destruct st as [eng out tr]. simpl. intros -> H.
  run_provider_in H. split_cases H; try discriminate H;
    injection H as <- <-.
  all: solve [ left; split; [discriminate | reflexivity]
             | right; split; [reflexivity | split; reflexivity] ].
Qed.

(** C4, as the code has it. When acquiring the connection fails, the
    error reaches the caller. If it is [create_engine] that fails,
    [engine] is still [None] afterwards. If the engine is built and
    connecting or the [SELECT 1] probe fails, the engine stays memoized,
    and the next call returns it without creating or probing anything. *)
Theorem get_db_connection_failure (cfg : Config) (W : World) (st : State) :
  engine st = None ->
  (forall e,
      create_engine_outcome W (CONNECTION_STRING cfg) = Some e ->
      exists st',
        get_db_connection cfg W st = (Raise (surfaced_error e), st')
        /\ engine st' = None)
  /\ (forall e,
        create_engine_outcome W (CONNECTION_STRING cfg) = None ->
        probe_error W = Some e ->
        exists st',
          get_db_connection cfg W st = (Raise (surfaced_error e), st')
          /\ engine st' = Some (mk_engine (CONNECTION_STRING cfg) true 3600 30)
          /\ forall W', get_db_connection cfg W' st' = (Ok (engine st'), st')).
Proof.
  destruct st as [eng out tr]. simpl. intros ->. split.
  - intros e Hce. run_provider. rewrite Hce. run_provider.
    unfold surfaced_error. split_goal; eexists; split; reflexivity.
  - intros e Hce Hp. unfold probe_error in Hp.
    run_provider. rewrite Hce. run_provider.
    destruct (connect_outcome W) as [e1|]; run_provider.
    { injection Hp as ->. unfold surfaced_error.
      split_goal; (eexists; split; [reflexivity | split; reflexivity]). }
    destruct (execute_outcome W (py "SELECT 1")) as [c | e2]; run_provider.
    2:{ injection Hp as ->. unfold surfaced_error.
        split_goal; (eexists; split; [reflexivity | split; reflexivity]). }
    destruct (cur_rows c); [|discriminate Hp]. rewrite Hp. run_provider.
    unfold surfaced_error.
    split_goal; (eexists; split; [reflexivity | split; reflexivity]).
Qed.

(** C4, as the specification words it, fails when the store cannot be
    reached: the call raises, yet [engine] is no longer what it was, and
    the next call hands the engine out without creating or probing. *)
Lemma failed_probe_leaves_engine_set :
  engine initial_state = None
  /\ (exists e,
        fst (get_db_connection cfg_sample W_unreachable initial_state) = Raise e)
  /\ engine (snd (get_db_connection cfg_sample W_unreachable initial_state))
     <> engine initial_state
  /\ get_db_connection cfg_sample W_unreachable
       (snd (get_db_connection cfg_sample W_unreachable initial_state))
     = (Ok (Some (mk_engine (CONNECTION_STRING cfg_sample) true 3600 30)),
        snd (get_db_connection cfg_sample W_unreachable initial_state)).
Proof.
  split; [reflexivity|]. split; [eexists; reflexivity|].
  split; [discriminate | reflexivity].
Qed.

Lemma get_db_connection_failure_witness :
  engine initial_state = None
  /\ probe_error W_unreachable = Some OperationalError
  /\ exists st',
       get_db_connection cfg_sample W_unreachable initial_state
       = (Raise (surfaced_error OperationalError), st')
       /\ engine st' = Some (mk_engine (CONNECTION_STRING cfg_sample) true 3600 30)
       /\ forall W',
            get_db_connection cfg_sample W' st' = (Ok (engine st'), st').
Proof.
  split; [reflexivity|]. split; [reflexivity|].
  apply (get_db_connection_failure cfg_sample W_unreachable initial_state);
    reflexivity.
Defined.

Lemma startswith_app (p s : pystr) : startswith p (p ++ s) = true.
Proof.
  induction p as [|a p IH]; simpl; [reflexivity|].
  rewrite N.eqb_refl. exact IH.
Qed.

Lemma contains_prefix (p s : pystr) : startswith p s = true -> contains p s = true.
Proof. intros H. destruct s; simpl; rewrite H; reflexivity. Qed.

Lemma contains_app (a p b : pystr) : contains p (a ++ p ++ b) = true.
Proof.
  induction a as [|x a IH]; simpl.
  - apply contains_prefix, startswith_app.
  - rewrite IH. apply orb_true_r.
Qed.

(** Every first acquisition prints the connection string, and the
    connection string spells out the password. *)
Lemma connection_string_is_printed (cfg : Config) (W : World) (st : State) :
  engine st = None ->
  In (py "连接字符串: " ++ CONNECTION_STRING cfg)
     (stdout (snd (get_db_connection cfg W st))).
Proof.
  destruct st as [eng out tr]. simpl. intros ->.
  destruct (get_db_connection cfg W (mk_state None out tr)) as [r st'] eqn:H.
  run_provider_in H. split_cases H; injection H as <- <-;
    cbn [snd stdout]; rewrite ?in_app_iff; simpl; tauto.
Qed.

Lemma connection_string_holds_password (cfg : Config) (password : pystr) :
  DB_PASSWORD cfg = Some password ->
  contains password (py "连接字符串: " ++ CONNECTION_STRING cfg) = true.
Proof.
  intros H. unfold CONNECTION_STRING. rewrite H. cbn [fmt].
  match goal with
  | |- contains _ (?a ++ ?b ++ ?c ++ ?d ++ password ++ ?r) = true =>
      replace (a ++ b ++ c ++ d ++ password ++ r)
        with ((a ++ b ++ c ++ d) ++ password ++ r)
        by (rewrite <- !app_assoc; reflexivity)
  end.
  apply contains_app.
Qed.

(** C8 fails on the code. With the password [s3cret] configured, the first
    acquisition writes a line that holds it to the standard output, both
    when the store answers and when it cannot be reached. *)
Theorem get_db_connection_prints_password :
  DB_PASSWORD cfg_sample = Some (py "s3cret")
  /\ existsb (contains (py "s3cret"))
       (stdout (snd (get_db_connection cfg_sample W_ok initial_state))) = true
  /\ existsb (contains (py "s3cret"))
       (stdout (snd (get_db_connection cfg_sample W_unreachable initial_state))) = true.
Proof. repeat split; vm_compute; reflexivity. Qed.

(** C2 fails on the code. In [newline_drop] the keyword [drop] stands
    alone between two line feeds, which are white space; the scan looks
    for it between two spaces only, finds nothing, and the statement is
    sent to the store. *)
Theorem query_sql_misses_newline_keyword (unicode_lower : pystr -> pystr) :
  strip (lower unicode_lower newline_drop)
  = py "select 1" ++ [10] ++ py "drop" ++ [10] ++ py "table users"
  /\ isspace 10 = true
  /\ In (py "drop") dangerous_keywords
  /\ startswith (py "select") (strip (lower unicode_lower newline_drop)) = true
  /\ find (keyword_in (strip (lower unicode_lower newline_drop))) dangerous_keywords
     = None
  /\ result_field
       (query_sql unicode_lower cfg_sample W_ok newline_drop initial_state)
       (py "error") = None
  /\ db_trace (snd (query_sql unicode_lower cfg_sample W_ok newline_drop initial_state))
     = [CreateEngine (CONNECTION_STRING cfg_sample); Connect;
        Execute (py "SELECT 1"); Connect; Execute newline_drop].
Proof.
  split; [reflexivity|]. split; [reflexivity|].
  split; [simpl; tauto|]. repeat split; vm_compute; reflexivity.
Qed.

(* ================================================================== *)
(** ** Row loops of the introspection tools *)

Lemma text_cell_loop_total (on_error : pystr -> exn -> M unit) :
  (forall col err st, exists st', on_error col err st = (Ok tt, st')) ->
  forall row ics d st,
    exists d' st', for_each (text_cell on_error row) ics d st = (Ok d', st').
Proof.
  intros Hh row ics. induction ics as [|[i col] t IH]; intros d st; simpl.
  - exists d, st. reflexivity.
  - unfold bind at 1. unfold text_cell, try_except, bind at 1, lift.
    destruct (row_get row i) as [v | e].
    + destruct v; apply IH.
    + unfold bind at 1. destruct (Hh col e st) as (st1 & ->). apply IH.
Qed.

Lemma silently_total col err st : exists st', silently col err st = (Ok tt, st').
Proof. exists st. reflexivity. Qed.

Lemma log_cell_error_total col err st :
  exists st', log_cell_error col err st = (Ok tt, st').
Proof. eexists. reflexivity. Qed.

Lemma length_append {A} (l : list A) (a : A) :
  List.length (append l a) = S (List.length l).
Proof. unfold append. rewrite length_app. simpl. lia. Qed.

Ltac first_attempt_succeeds H :=
  let acc := fresh "acc" in
  let st := fresh "st" in
  let d := fresh "d" in
  let st1 := fresh "st" in
  let Hd := fresh "Hd" in
  intros acc ? st;
  match goal with
  | |- context [for_each (text_cell ?h ?r) ?ics] =>
      destruct (text_cell_loop_total h H r ics [] st) as (d & st1 & Hd)
  end;
  eexists _, st1; split;
  [ unfold try_except; rewrite (bind_ok _ _ _ _ _ Hd); reflexivity
  | apply length_append ].

Lemma plain_row_appends label key col_names :
  appends_one (plain_row label key col_names).
Proof. unfold plain_row. first_attempt_succeeds silently_total. Qed.

Lemma simple_row_appends label key col_names :
  appends_one (simple_row label key col_names).
Proof. unfold simple_row. first_attempt_succeeds silently_total. Qed.

Lemma rich_column_row_appends col_names : appends_one (rich_column_row col_names).
Proof. unfold rich_column_row. first_attempt_succeeds log_cell_error_total. Qed.

Lemma rich_table_row_appends col_names : appends_one (rich_table_row col_names).
Proof. unfold rich_table_row. first_attempt_succeeds log_cell_error_total. Qed.

Lemma for_each_appends body (rows : list Row) :
  appends_one body ->
  forall acc st,
    exists acc' st',
      for_each body rows acc st = (Ok acc', st')
      /\ List.length acc' = (List.length acc + List.length rows)%nat.
Proof.
  intros Hb. induction rows as [|row t IH]; intros acc st; simpl.
  - exists acc, st. split; [reflexivity | lia].
  - destruct (Hb acc row st) as (acc1 & st1 & H1 & L1).
    rewrite (bind_ok _ _ _ _ _ H1).
    destruct (IH acc1 st1) as (acc2 & st2 & H2 & L2).
    exists acc2, st2. split; [exact H2 | lia].
Qed.

(** Reading a cursor to its end: one entry per row, unless fetching
    fails. *)
Lemma for_cursor_ok body (c : Cursor) st :
  appends_one body -> fetch_error c = None ->
  exists acc st',
    for_cursor body c [] st = (Ok acc, st')
    /\ List.length acc = List.length (cur_rows c).
Proof.
  intros Hb Hf. unfold for_cursor.
  destruct (for_each_appends body (cur_rows c) Hb [] st) as (acc & st' & H & L).
  rewrite (bind_ok _ _ _ _ _ H), Hf. exists acc, st'. split; [reflexivity | exact L].
Qed.

Lemma for_cursor_fetch_error body (c : Cursor) st :
  appends_one body -> fetch_error c <> None ->
  exists e st', for_cursor body c [] st = (Raise e, st').
Proof.
  intros Hb Hf. unfold for_cursor.
  destruct (for_each_appends body (cur_rows c) Hb [] st) as (acc & st' & H & _).
  rewrite (bind_ok _ _ _ _ _ H).
  destruct (fetch_error c) as [e|]; [|contradiction].
  exists e, st'. reflexivity.
Qed.

Lemma print_ok line st : exists st', print line st = (Ok tt, st').
Proof. eexists. reflexivity. Qed.

(* ================================================================== *)
(** ** The schema introspector *)

Section Introspection.

Variable cfg : Config.
Variable W : World.

Lemma execute_eq (sql : pystr) (st : State) :
  execute W sql st
  = (execute_outcome W sql,
     mk_state (engine st) (stdout st) (db_trace st ++ [Execute sql])).
Proof. reflexivity. Qed.

Lemma bind_print {A} (line : pystr) (k : unit -> M A) (st : State) :
  bind (print line) k st
  = k tt (mk_state (engine st) (stdout st ++ [line]) (db_trace st)).
Proof. reflexivity. Qed.

(** A statement that cannot be run to its last row makes the loop over its
    cursor raise. *)
Lemma execute_then_loop_fails {A} (sql : pystr)
  (body : list pystr -> list pyval -> Row -> M (list pyval))
  (k : list pyval -> M A) (st : State) :
  (forall names, appends_one (body names)) ->
  query_fails W sql ->
  exists e st',
    (result <- execute W sql ;;
     rows <- for_cursor (body (keys result)) result [] ;;
     k rows) st = (Raise e, st').
Proof.
  intros Hb Hq. unfold bind at 1. rewrite execute_eq.
  unfold query_fails in Hq. destruct (execute_outcome W sql) as [c | e];
    cbv beta iota.
  - match goal with
    | |- context [bind (for_cursor _ _ _) _ ?s] =>
        destruct (for_cursor_fetch_error (body (keys c)) c s (Hb _) Hq)
          as (e & st' & H)
    end.
    rewrite (bind_raise _ _ _ _ _ H). exists e, st'. reflexivity.
  - eexists _, _. reflexivity.
Qed.

Lemma fetch_plain_fails eng sql label key st :
  query_fails W sql ->
  exists e st', fetch_plain W eng sql label key st = (Raise e, st').
Proof.
  intros Hq. unfold fetch_plain.
  destruct (connect W eng st) as [[[] | e] st1] eqn:Hc.
  - rewrite (bind_ok _ _ _ _ _ Hc).
    destruct (execute_then_loop_fails sql (plain_row label key) ret st1
                (plain_row_appends label key) Hq) as (e & st' & H).
    exists e, st'. rewrite <- H. unfold bind.
    destruct (execute W sql st1) as [[c | e1] st2]; [|reflexivity].
    destruct (for_cursor _ c [] st2) as [[rows | e2] st3]; reflexivity.
  - rewrite (bind_raise _ _ _ _ _ Hc). exists e, st1. reflexivity.
Qed.

Lemma fetch_columns_fails eng table_name schema st :
  query_fails W (columns_sql table_name schema) ->
  query_fails W (simple_columns_sql table_name schema) ->
  exists e st', fetch_columns W eng table_name schema st = (Raise e, st').
Proof.
  intros Hq1 Hq2. unfold fetch_columns.
  match goal with |- context [try_except ?m ?h] => set (rich := m); set (simple := h) end.
  assert (H1 : exists e st1, rich st = (Raise e, st1)).
  { subst rich. destruct (connect W eng st) as [[[] | e] st1] eqn:Hc.
    - rewrite (bind_ok _ _ _ _ _ Hc), bind_print.
      apply execute_then_loop_fails; [apply rich_column_row_appends | exact Hq1].
    - rewrite (bind_raise _ _ _ _ _ Hc). eauto. }
  destruct H1 as (e1 & st1 & H1). rewrite (try_except_raise _ _ _ _ _ H1).
  subst simple. cbv beta. rewrite bind_print.
  match goal with |- context [bind (connect W eng) _ ?s] =>
    destruct (connect W eng s) as [[[] | e] st2] eqn:Hc end.
  - rewrite (bind_ok _ _ _ _ _ Hc), bind_print.
    apply execute_then_loop_fails; [intros names; apply simple_row_appends | exact Hq2].
  - rewrite (bind_raise _ _ _ _ _ Hc). eauto.
Qed.

(** C3, as the code has it. When one of the four sub-queries cannot be
    run (the columns query on both of its tiers; the primary-key,
    foreign-key or index query on its only tier), [get_table_structure]
    answers with the whole-call error value: no list is returned. *)
Theorem get_table_structure_subquery_failure (table_name schema : pystr)
  (st : State) :
  (query_fails W (columns_sql table_name schema)
   /\ query_fails W (simple_columns_sql table_name schema))
  \/ query_fails W (pk_sql table_name schema)
  \/ query_fails W (fk_sql table_name schema)
  \/ query_fails W (index_sql table_name schema) ->
  exists e st',
    get_table_structure cfg W table_name schema st
    = (Ok (VDict [(py "error", VStr (exn_msg e));
                  (py "table", VStr table_name);
                  (py "schema", VStr schema)]), st').
Proof.
  intros Hfail. unfold get_table_structure.
  match goal with |- context [try_except ?m ?h] => set (body := m); set (handler := h) end.
  destruct (body st) as [[v | e] st1] eqn:Hb.
  2:{ rewrite (try_except_raise _ _ _ _ _ Hb). eexists e, _. reflexivity. }
  exfalso. subst body.
  apply bind_ok_inv in Hb. destruct Hb as ([] & s0 & _ & Hb).
  apply bind_ok_inv in Hb. destruct Hb as (eng & s1 & _ & Hb).
  apply bind_ok_inv in Hb. destruct Hb as (columns & s2 & Hcols & Hb).
  apply bind_ok_inv in Hb. destruct Hb as (pks & s3 & Hpk & Hb).
  apply bind_ok_inv in Hb. destruct Hb as ([] & s4 & _ & Hb).
  apply bind_ok_inv in Hb. destruct Hb as (fks & s5 & Hfk & Hb).
  apply bind_ok_inv in Hb. destruct Hb as ([] & s6 & _ & Hb).
  apply bind_ok_inv in Hb. destruct Hb as (idxs & s7 & Hidx & Hb).
  destruct Hfail as [[Hq1 Hq2] | [Hq | [Hq | Hq]]].
  - destruct (fetch_columns_fails eng table_name schema s1 Hq1 Hq2) as (e & s & H).
    rewrite H in Hcols. discriminate Hcols.
  - destruct (fetch_plain_fails eng _ (py "处理主键信息时出错: ") (py "column_name") s2 Hq)
      as (e & s & H).
    rewrite H in Hpk. discriminate Hpk.
  - destruct (fetch_plain_fails eng _ (py "处理外键信息时出错: ") (py "fk_name") s4 Hq)
      as (e & s & H).
    rewrite H in Hfk. discriminate Hfk.
  - destruct (fetch_plain_fails eng _ (py "处理索引信息时出错: ") (py "index_name") s6 Hq)
      as (e & s & H).
    rewrite H in Hidx. discriminate Hidx.
Qed.

End Introspection.

(** C3, as the specification words it, fails on a SQL Server 2016
    instance: the connection works and the columns, primary-key and
    foreign-key queries run, the index query is refused, and the answer is
    the error value, with no [indexes] list and none of the other three
    lists. *)
Lemma index_failure_fails_whole_call :
  connect_outcome W_2016 = None
  /\ ~ query_fails W_2016 (columns_sql (py "Orders") (py "dbo"))
  /\ ~ query_fails W_2016 (pk_sql (py "Orders") (py "dbo"))
  /\ ~ query_fails W_2016 (fk_sql (py "Orders") (py "dbo"))
  /\ query_fails W_2016 (index_sql (py "Orders") (py "dbo"))
  /\ fst (get_table_structure cfg_sample W_2016 (py "Orders") (py "dbo") initial_state)
     = Ok (structure_error (exn_msg ProgrammingError) (py "Orders") (py "dbo"))
  /\ result_field
       (get_table_structure cfg_sample W_2016 (py "Orders") (py "dbo") initial_state)
       (py "indexes") <> Some (VList [])
  /\ result_field
       (get_table_structure cfg_sample W_2016 (py "Orders") (py "dbo") initial_state)
       (py "columns") = None
  /\ result_field
       (get_table_structure cfg_sample W_2016 (py "Orders") (py "dbo") initial_state)
       (py "primary_keys") = None
  /\ result_field
       (get_table_structure cfg_sample W_2016 (py "Orders") (py "dbo") initial_state)
       (py "foreign_keys") = None.
Proof.
  split; [reflexivity|].
  split; [vm_compute; intros H; apply H; reflexivity|].
  split; [vm_compute; intros H; apply H; reflexivity|].
  split; [vm_compute; intros H; apply H; reflexivity|].
  split; [vm_compute; exact I|].
  split; [vm_compute; reflexivity|].
  split; [vm_compute; discriminate|].
  repeat split; vm_compute; reflexivity.
Qed.

Lemma get_table_structure_subquery_failure_witness :
  query_fails W_2016 (index_sql (py "Orders") (py "dbo"))
  /\ exists e st',
       get_table_structure cfg_sample W_2016 (py "Orders") (py "dbo") initial_state
       = (Ok (VDict [(py "error", VStr (exn_msg e));
                     (py "table", VStr (py "Orders"));
                     (py "schema", VStr (py "dbo"))]), st').
Proof.
  split; [vm_compute; exact I|].
  apply (get_table_structure_subquery_failure cfg_sample W_2016
           (py "Orders") (py "dbo") initial_state).
  right; right; right. vm_compute. exact I.
Defined.

(* ================================================================== *)
(** ** The catalog lister *)

(** What was printed before does not change what the provider returns. *)
Lemma get_db_connection_ignores_stdout (cfg : Config) (W : World)
  (eng : option Engine) (out out' : list pystr) (tr : list db_event) :
  fst (get_db_connection cfg W (mk_state eng out tr))
  = fst (get_db_connection cfg W (mk_state eng out' tr)).
Proof.
  destruct eng; [reflexivity|].
  run_provider. split_goal; reflexivity.
Qed.

Section Catalog.

Variable cfg : Config.
Variable W : World.

Lemma connect_ok (eng : Engine) (st : State) :
  connect_outcome W = None ->
  connect W (Some eng) st
  = (Ok tt, mk_state (engine st) (stdout st) (db_trace st ++ [Connect])).
Proof. intros H. unfold connect, bind, emit, ret. rewrite H. reflexivity. Qed.

Lemma execute_then_read_fails (sql : pystr)
  (body : list pystr -> list pyval -> Row -> M (list pyval)) (st : State) :
  (forall names, appends_one (body names)) ->
  query_fails W sql ->
  exists e st',
    (result <- execute W sql ;; for_cursor (body (keys result)) result []) st
    = (Raise e, st').
Proof.
  intros Hb Hq. unfold bind at 1. rewrite execute_eq.
  unfold query_fails in Hq. destruct (execute_outcome W sql) as [c | e];
    cbv beta iota.
  - apply for_cursor_fetch_error; [apply Hb | exact Hq].
  - eexists _, _. reflexivity.
Qed.

Lemma execute_then_read_ok (sql : pystr) (c : Cursor)
  (body : list pystr -> list pyval -> Row -> M (list pyval)) (st : State) :
  (forall names, appends_one (body names)) ->
  execute_outcome W sql = Ok c ->
  fetch_error c = None ->
  exists rows st',
    (result <- execute W sql ;; for_cursor (body (keys result)) result []) st
    = (Ok rows, st')
    /\ List.length rows = List.length (cur_rows c).
Proof.
  intros Hb Hex Hf. unfold bind at 1. rewrite execute_eq, Hex. cbv beta iota.
  apply for_cursor_ok; [apply Hb | exact Hf].
Qed.

(** The two tiers of the table query: the rich statement when it runs,
    the simplified one when the rich one cannot be run. Either way there
    is one entry per row of the cursor that was read. *)
Lemma fetch_tables_reads (eng : Engine) (schema : pystr) (c : Cursor) (st : State) :
  connect_outcome W = None ->
  fetch_error c = None ->
  execute_outcome W (list_tables_sql schema) = Ok c
  \/ (query_fails W (list_tables_sql schema)
      /\ execute_outcome W (list_tables_simple_sql schema) = Ok c) ->
  exists tables st',
    fetch_tables W (Some eng) schema st = (Ok tables, st')
    /\ List.length tables = List.length (cur_rows c).
Proof.
  intros Hco Hf Htier. unfold fetch_tables.
  match goal with |- context [try_except ?m ?h] => set (rich := m); set (simple := h) end.
  destruct Htier as [Hex | [Hq Hex]].
  - destruct (execute_then_read_ok (list_tables_sql schema) c rich_table_row
                (mk_state (engine st)
                   ((stdout st) ++ [py "尝试执行带有表描述的查询..."])
                   (db_trace st ++ [Connect]))
                rich_table_row_appends Hex Hf) as (tables & st' & H & L).
    exists tables, st'. split; [|exact L].
    apply try_except_ok. subst rich.
    rewrite (bind_ok _ _ _ _ _ (connect_ok eng st Hco)), bind_print. exact H.
  - destruct (execute_then_read_fails (list_tables_sql schema) rich_table_row
                (mk_state (engine st)
                   ((stdout st) ++ [py "尝试执行带有表描述的查询..."])
                   (db_trace st ++ [Connect]))
                rich_table_row_appends Hq) as (e & st1 & H1).
    assert (Hrich : rich st = (Raise e, st1)).
    { subst rich.
      rewrite (bind_ok _ _ _ _ _ (connect_ok eng st Hco)), bind_print. exact H1. }
    rewrite (try_except_raise _ _ _ _ _ Hrich). subst simple. cbv beta.
    rewrite bind_print.
    match goal with |- context [bind (connect W (Some eng)) _ ?s] =>
      rewrite (bind_ok _ _ _ _ _ (connect_ok eng s Hco)) end.
    rewrite bind_print.
    apply execute_then_read_ok;
      [intros names; apply simple_row_appends | exact Hex | exact Hf].
Qed.

Lemma tables_field a b :
  dict_get [(py "tables", a); (py "count", b)] (py "tables") = Some a.
Proof. reflexivity. Qed.

Lemma count_field a b :
  dict_get [(py "tables", a); (py "count", b)] (py "count") = Some b.
Proof. reflexivity. Qed.

Lemma list_error_has_no_tables msg schema :
  dict_get [(py "error", VStr msg); (py "schema", VStr schema)] (py "tables") = None.
Proof. reflexivity. Qed.

(** C10. Whenever [list_tables] returns a [tables] list, on either tier,
    its [count] is the length of that list. With a usable connection, a
    table query that runs to its end on either tier gives one entry per
    row of its cursor; so a schema without tables gives the empty list
    and the count 0, not an error. *)
Theorem list_tables_count (schema : pystr) (st : State) :
  (forall tables,
      result_field (list_tables cfg W schema st) (py "tables") = Some (VList tables) ->
      result_field (list_tables cfg W schema st) (py "count")
      = Some (VInt (Z.of_nat (List.length tables))))
  /\ (forall eng c,
        fst (get_db_connection cfg W st) = Ok (Some eng) ->
        connect_outcome W = None ->
        fetch_error c = None ->
        execute_outcome W (list_tables_sql schema) = Ok c
        \/ (query_fails W (list_tables_sql schema)
            /\ execute_outcome W (list_tables_simple_sql schema) = Ok c) ->
        (exists tables,
            fst (list_tables cfg W schema st)
            = Ok (VDict [(py "tables", VList tables);
                         (py "count", VInt (Z.of_nat (List.length tables)))])
            /\ List.length tables = List.length (cur_rows c))
        /\ (cur_rows c = [] ->
            fst (list_tables cfg W schema st)
            = Ok (VDict [(py "tables", VList []); (py "count", VInt 0)]))).
Proof.
  split.
  - intros tables. unfold list_tables.
    match goal with |- context [try_except ?m ?h] => set (body := m); set (handler := h) end.
    destruct (body st) as [[v | e] st1] eqn:Hb.
    + rewrite (try_except_ok _ _ _ _ _ Hb). subst body.
      apply bind_ok_inv in Hb. destruct Hb as ([] & s0 & _ & Hb).
      apply bind_ok_inv in Hb. destruct Hb as (eng & s1 & _ & Hb).
      apply bind_ok_inv in Hb. destruct Hb as (tbls & s2 & _ & Hb).
      apply bind_ok_inv in Hb. destruct Hb as ([] & s3 & _ & Hb).
      unfold ret in Hb. injection Hb as <- <-.
      unfold result_field. cbn [fst]. rewrite tables_field, count_field.
      intros H. injection H as <-. reflexivity.
    + rewrite (try_except_raise _ _ _ _ _ Hb). subst handler.
      unfold result_field. cbv beta zeta. rewrite bind_print. unfold ret. cbn [fst].
      rewrite list_error_has_no_tables. discriminate.
  - intros eng c Hconn Hco Hf Htier.
    assert (Hmain : exists tables,
               fst (list_tables cfg W schema st)
               = Ok (VDict [(py "tables", VList tables);
                            (py "count", VInt (Z.of_nat (List.length tables)))])
               /\ List.length tables = List.length (cur_rows c)).
    { unfold list_tables.
      match goal with |- context [try_except ?m ?h] => set (body := m); set (handler := h) end.
      assert (Hb : exists tables st',
                 body st = (Ok (VDict [(py "tables", VList tables);
                                       (py "count", VInt (Z.of_nat (List.length tables)))]),
                            st')
                 /\ List.length tables = List.length (cur_rows c)).
      { subst body. rewrite bind_print.
        destruct st as [e0 out tr]. cbn [engine stdout db_trace].
        pose proof (get_db_connection_ignores_stdout cfg W e0 out
                      (out ++ [py "列出架构 '" ++ schema ++ py "' 中的所有表"]) tr) as Hfr.
        rewrite Hconn in Hfr.
        destruct (get_db_connection cfg W
                    (mk_state e0 (out ++ [py "列出架构 '" ++ schema ++ py "' 中的所有表"]) tr))
          as [r s1] eqn:Hg.
        cbn [fst] in Hfr. subst r.
        rewrite (bind_ok _ _ _ _ _ Hg).
        destruct (fetch_tables_reads eng schema c s1 Hco Hf Htier)
          as (tables & s2 & Hft & L).
        rewrite (bind_ok _ _ _ _ _ Hft), bind_print.
        exists tables. eexists. split; [reflexivity | exact L]. }
      destruct Hb as (tables & st' & Hb & L).
      exists tables. rewrite (try_except_ok _ _ _ _ _ Hb). split; [reflexivity | exact L]. }
    split; [exact Hmain|].
    intros Hempty. destruct Hmain as (tables & H & L).
    rewrite Hempty in L. destruct tables; [exact H | discriminate L].
Qed.

End Catalog.

(* ================================================================== *)
(** ** The statements at sample inputs *)


Lemma query_sql_rejects_non_select_witness :
  startswith (py "select") (strip (lower identity_lower [])) = false
  /\ exists st',
       query_sql identity_lower cfg_sample W_ok [] initial_state
       = (Ok (VDict [(py "error", VStr (py "安全限制：只允许执行SELECT语句"));
                     (py "sql", VStr [])]), st')
       /\ db_trace st' = db_trace initial_state.
Proof.
  split; [reflexivity|].
  apply (query_sql_rejects_non_select identity_lower cfg_sample W_ok []
           initial_state).
  reflexivity.
Defined.

Lemma query_sql_rejected_keeps_engine_witness :
  In (py "drop") dangerous_keywords
  /\ keyword_in (strip (lower identity_lower (py "SELECT 1; DROP TABLE Users")))
       (py "drop") = true
  /\ exists msg st',
       query_sql identity_lower cfg_sample W_ok (py "SELECT 1; DROP TABLE Users")
         initial_state
       = (Ok (query_error msg (py "SELECT 1; DROP TABLE Users")), st')
       /\ engine st' = engine initial_state
       /\ db_trace st' = db_trace initial_state.
Proof.
  split; [simpl; tauto|]. split; [reflexivity|].
  apply (query_sql_rejected_keeps_engine identity_lower cfg_sample W_ok
           (py "SELECT 1; DROP TABLE Users") initial_state).
  right. exists (py "drop"). split; [simpl; tauto | reflexivity].
Defined.

Lemma query_sql_row_count_witness :
  execute_outcome W_ok (py "SELECT a, b FROM t") = Ok sample_cursor
  /\ result_field
       (query_sql identity_lower cfg_sample W_ok (py "SELECT a, b FROM t") initial_state)
       (py "rows") = Some (VList sample_rows)
  /\ result_field
       (query_sql identity_lower cfg_sample W_ok (py "SELECT a, b FROM t") initial_state)
       (py "row_count") = Some (VInt 2)
  /\ List.length sample_rows = List.length (cur_rows sample_cursor).
Proof.
  split; [reflexivity|]. split; [vm_compute; reflexivity|].
  apply (query_sql_row_count identity_lower cfg_sample W_ok
           (py "SELECT a, b FROM t") initial_state sample_cursor sample_rows).
  - reflexivity.
  - vm_compute. reflexivity.
Defined.

Lemma query_sql_keeps_row_with_bad_cell_witness :
  only_bad_cell (mk_row [Ok (DInt 2); bad_cell] (py "(2, ?)")) 2 1
  /\ List.length sample_rows = List.length (cur_rows sample_cursor)
  /\ exists row_dict,
       nth_error sample_rows 1 = Some (VDict row_dict)
       /\ (forall j col, j <> 1%nat -> names_key (keys sample_cursor) j col ->
             exists v, row_get (mk_row [Ok (DInt 2); bad_cell] (py "(2, ?)")) j = Ok v
                       /\ dict_get row_dict col = Some (VAtom v))
       /\ (forall col, names_key (keys sample_cursor) 1 col ->
             dict_get row_dict col = Some VNone).
Proof.
  assert (Hbad : only_bad_cell (mk_row [Ok (DInt 2); bad_cell] (py "(2, ?)")) 2 1).
  { split; [lia|]. split; [eexists; reflexivity|].
    intros j Hj Hne. assert (j = 0%nat) as -> by lia. eexists. reflexivity. }
  split; [exact Hbad|].
  apply (query_sql_keeps_row_with_bad_cell identity_lower cfg_sample W_ok
           (py "SELECT a, b FROM t") initial_state sample_cursor sample_rows 1 1
           (mk_row [Ok (DInt 2); bad_cell] (py "(2, ?)"))).
  - reflexivity.
  - vm_compute. reflexivity.
  - reflexivity.
  - exact Hbad.
Defined.

Lemma query_sql_rows_have_column_keys_witness :
  In (VDict [(py "a", VInt 2); (py "b", VNone)]) sample_rows
  /\ exists row_dict,
       VDict [(py "a", VInt 2); (py "b", VNone)] = VDict row_dict
       /\ NoDup (dict_keys row_dict)
       /\ forall k, In k (dict_keys row_dict)
                    <-> In (VStr k) [VStr (py "a"); VStr (py "b")].
Proof.
  split; [right; left; reflexivity|].
  apply (query_sql_rows_have_column_keys identity_lower cfg_sample W_ok
           (py "SELECT a, b FROM t") initial_state
           [VStr (py "a"); VStr (py "b")] sample_rows).
  - vm_compute. reflexivity.
  - vm_compute. reflexivity.
  - right; left; reflexivity.
Defined.

Lemma list_tables_count_witness :
  result_field (list_tables cfg_sample W_2016 (py "dbo") initial_state) (py "count")
  = Some (VInt 0)
  /\ fst (list_tables cfg_sample W_2016 (py "dbo") initial_state)
     = Ok (VDict [(py "tables", VList []); (py "count", VInt 0)])
  /\ query_fails W_no_description (list_tables_sql (py "dbo"))
  /\ fst (list_tables cfg_sample W_no_description (py "dbo") initial_state)
     = Ok (VDict [(py "tables", VList []); (py "count", VInt 0)]).
Proof.
  destruct (list_tables_count cfg_sample W_2016 (py "dbo") initial_state) as [H1 H2].
  destruct (list_tables_count cfg_sample W_no_description (py "dbo") initial_state)
    as [_ H3].
  split; [apply (H1 []); vm_compute; reflexivity|].
  split.
  - destruct (H2 sample_engine (empty_cursor [py "column_name"])) as [_ H].
    + vm_compute. reflexivity.
    + reflexivity.
    + reflexivity.
    + left. vm_compute. reflexivity.
    + apply H. reflexivity.
  - split; [vm_compute; exact I|].
    destruct (H3 sample_engine (empty_cursor [py "table_name"; py "schema_name"]))
      as [_ H].
    + vm_compute. reflexivity.
    + reflexivity.
    + reflexivity.
    + right. split; [vm_compute; exact I | vm_compute; reflexivity].
    + apply H. reflexivity.
Defined.

(* ================================================================== *)
(** ** Relations kept by every run *)

Section Respects.

Variable R : State -> State -> Prop.
Hypothesis R_refl : forall st, R st st.
Hypothesis R_trans : forall a b c, R a b -> R b c -> R a c.
Hypothesis R_print :
  forall st line, R st (mk_state (engine st) (stdout st ++ [line]) (db_trace st)).

Lemma respects_ret {A} (a : A) : respects R (ret a).
Proof. intros st r st' H. injection H as _ <-. apply R_refl. Qed.

Lemma respects_raise {A} (e : exn) : respects R (@raise A e).
Proof. intros st r st' H. injection H as _ <-. apply R_refl. Qed.

Lemma respects_lift {A} (x : res A) : respects R (lift x).
Proof. intros st r st' H. injection H as _ <-. apply R_refl. Qed.

Lemma respects_get_engine : respects R get_engine.
Proof. intros st r st' H. injection H as _ <-. apply R_refl. Qed.

Lemma respects_print (line : pystr) : respects R (print line).
Proof. intros st r st' H. injection H as _ <-. apply R_print. Qed.

Lemma respects_bind {A B} (m : M A) (k : A -> M B) :
  respects R m -> (forall a, respects R (k a)) -> respects R (bind m k).
Proof.
  intros Hm Hk st r st' H. unfold bind in H.
  destruct (m st) as [[a | e] st1] eqn:E.
  - apply (R_trans _ st1); [apply (Hm _ _ _ E) | apply (Hk a _ _ _ H)].
  - injection H as _ <-. apply (Hm _ _ _ E).
Qed.

Lemma respects_try {A} (m : M A) (h : exn -> M A) :
  respects R m -> (forall e, respects R (h e)) -> respects R (try_except m h).
Proof.
  intros Hm Hh st r st' H. unfold try_except in H.
  destruct (m st) as [[a | e] st1] eqn:E.
  - injection H as _ <-. apply (Hm _ _ _ E).
  - apply (R_trans _ st1); [apply (Hm _ _ _ E) | apply (Hh e _ _ _ H)].
Qed.

Lemma respects_try_sqlalchemy {A} (m : M A) (h : exn -> M A) :
  respects R m -> (forall e, respects R (h e)) ->
  respects R (try_except_sqlalchemy m h).
Proof.
  intros Hm Hh st r st' H. unfold try_except_sqlalchemy in H.
  destruct (m st) as [[a | e] st1] eqn:E.
  - injection H as _ <-. apply (Hm _ _ _ E).
  - destruct (exn_sqlalchemy e).
    + apply (R_trans _ st1); [apply (Hm _ _ _ E) | apply (Hh e _ _ _ H)].
    + injection H as _ <-. apply (Hm _ _ _ E).
Qed.

Lemma respects_for_each {A S} (body : S -> A -> M S) (l : list A) :
  (forall s a, respects R (body s a)) -> forall s, respects R (for_each body l s).
Proof.
  intros Hb. induction l as [|a t IH]; intros s; simpl.
  - apply respects_ret.
  - apply respects_bind; [apply Hb | intros s'; apply IH].
Qed.

Lemma respects_for_cursor {S} (body : S -> Row -> M S) (c : Cursor) (s : S) :
  (forall s row, respects R (body s row)) -> respects R (for_cursor body c s).
Proof.
  intros Hb. unfold for_cursor. apply respects_bind.
  - apply respects_for_each, Hb.
  - intros s'. destruct (fetch_error c); [apply respects_raise | apply respects_ret].
Qed.

Lemma respects_fetchone (c : Cursor) : respects R (fetchone c).
Proof.
  unfold fetchone. destruct (cur_rows c);
    [destruct (fetch_error c); [apply respects_raise | apply respects_ret]
    | apply respects_ret].
Qed.

End Respects.

(** Steps through a computation built from the monad's operations. *)
Ltac respect_steps refl trans pr :=
  repeat (intros; cbv zeta;
          match goal with
          | |- respects _ (bind _ _) => apply (respects_bind _ trans)
          | |- respects _ (try_except _ _) => apply (respects_try _ trans)
          | |- respects _ (try_except_sqlalchemy _ _) =>
              apply (respects_try_sqlalchemy _ trans)
          | |- respects _ (for_cursor _ _ _) => apply (respects_for_cursor _ refl trans)
          | |- respects _ (for_each _ _ _) => apply (respects_for_each _ refl trans)
          | |- respects _ (fetchone _) => apply (respects_fetchone _ refl)
          | |- respects _ (print _) => apply (respects_print _ pr)
          | |- respects _ (ret _) => apply (respects_ret _ refl)
          | |- respects _ (raise _) => apply (respects_raise _ refl)
          | |- respects _ (lift _) => apply (respects_lift _ refl)
          | |- respects _ get_engine => apply (respects_get_engine _ refl)
          | |- respects _ (match ?x with _ => _ end) => destruct x
          end).

(** The row loops print at most; they respect whatever printing
    respects. *)
Section RespectsRows.

Variable R : State -> State -> Prop.
Hypothesis R_refl : forall st, R st st.
Hypothesis R_trans : forall a b c, R a b -> R b c -> R a c.
Hypothesis R_print :
  forall st line, R st (mk_state (engine st) (stdout st ++ [line]) (db_trace st)).

Lemma respects_materialize_row columns acc row :
  respects R (materialize_row columns acc row).
Proof.
  unfold materialize_row, cell_or_none. respect_steps R_refl R_trans R_print.
Qed.

Lemma respects_text_cell on_error row d ic :
  (forall col e, respects R (on_error col e)) ->
  respects R (text_cell on_error row d ic).
Proof.
  intros H. unfold text_cell. respect_steps R_refl R_trans R_print; apply H.
Qed.

Lemma respects_silently col e : respects R (silently col e).
Proof. unfold silently. respect_steps R_refl R_trans R_print. Qed.

Lemma respects_log_cell_error col e : respects R (log_cell_error col e).
Proof. unfold log_cell_error. respect_steps R_refl R_trans R_print. Qed.

Lemma respects_first_cell_or_unknown row : respects R (first_cell_or_unknown row).
Proof. unfold first_cell_or_unknown. respect_steps R_refl R_trans R_print. Qed.

Lemma respects_plain_row label key names acc row :
  respects R (plain_row label key names acc row).
Proof.
  unfold plain_row. respect_steps R_refl R_trans R_print;
    intros;
    first [ apply respects_text_cell; intros; apply respects_silently
          | apply respects_first_cell_or_unknown ].
Qed.

Lemma respects_simple_row label key names acc row :
  respects R (simple_row label key names acc row).
Proof.
  unfold simple_row. respect_steps R_refl R_trans R_print;
    intros;
    first [ apply respects_text_cell; intros; apply respects_silently
          | apply respects_first_cell_or_unknown ].
Qed.

Lemma respects_rich_column_row names acc row :
  respects R (rich_column_row names acc row).
Proof.
  unfold rich_column_row. respect_steps R_refl R_trans R_print;
    intros;
    first [ apply respects_text_cell; intros; apply respects_log_cell_error
          | apply respects_first_cell_or_unknown ].
Qed.

Lemma respects_rich_table_row names acc row :
  respects R (rich_table_row names acc row).
Proof.
  unfold rich_table_row. respect_steps R_refl R_trans R_print;
    intros;
    first [ apply respects_text_cell; intros; apply respects_log_cell_error
          | apply respects_first_cell_or_unknown ].
Qed.

Lemma respects_first_or_none result : respects R (first_or_none result).
Proof. unfold first_or_none. respect_steps R_refl R_trans R_print. Qed.

End RespectsRows.

(* ================================================================== *)
(** ** What the tools send to the store *)

Section Emitted.

Variable P : db_event -> Prop.

Lemma emitted_refl st : emitted_only P st st.
Proof. exists []. split; [symmetry; apply app_nil_r | constructor]. Qed.

Lemma emitted_trans a b c :
  emitted_only P a b -> emitted_only P b c -> emitted_only P a c.
Proof.
  intros (e1 & H1 & F1) (e2 & H2 & F2). exists (e1 ++ e2). split.
  - rewrite H2, H1. symmetry. apply app_assoc.
  - apply Forall_app. split; assumption.
Qed.

Lemma emitted_print st line :
  emitted_only P st (mk_state (engine st) (stdout st ++ [line]) (db_trace st)).
Proof. exists []. split; [symmetry; apply app_nil_r | constructor]. Qed.

Lemma emitted_emit ev : P ev -> respects (emitted_only P) (emit ev).
Proof.
  intros Hev st r st' H. injection H as _ <-. exists [ev].
  split; [reflexivity | constructor; [exact Hev | constructor]].
Qed.

Lemma emitted_set_engine e : respects (emitted_only P) (set_engine e).
Proof.
  intros st r st' H. injection H as _ <-. exists [].
  split; [symmetry; apply app_nil_r | constructor].
Qed.

Variable cfg : Config.
Variable W : World.

Lemma emitted_connect eng : P Connect -> respects (emitted_only P) (connect W eng).
Proof.
  intros HP. unfold connect.
  respect_steps emitted_refl emitted_trans emitted_print.
  apply emitted_emit, HP.
Qed.

Lemma emitted_execute q : P (Execute q) -> respects (emitted_only P) (execute W q).
Proof.
  intros HP. unfold execute.
  respect_steps emitted_refl emitted_trans emitted_print.
  apply emitted_emit, HP.
Qed.

Lemma emitted_provider :
  P (CreateEngine (CONNECTION_STRING cfg)) -> P Connect ->
  P (Execute (py "SELECT 1")) ->
  respects (emitted_only P) (get_db_connection cfg W).
Proof.
  intros H1 H2 H3. unfold get_db_connection, create_engine.
  respect_steps emitted_refl emitted_trans emitted_print;
    first [ apply emitted_emit, H1 | apply emitted_set_engine
          | apply emitted_connect, H2 | apply emitted_execute, H3 ].
Qed.

End Emitted.

(** Membership in a list of statements, by position. *)
Ltac in_list :=
  repeat match goal with
         | |- In ?x (?y :: _) => first [ constr_eq x y; apply in_eq | apply in_cons ]
         end.

Ltac emitted_leaf :=
  cbv beta iota delta [executes_within]; first [ exact I | in_list ].

Ltac row_leaf :=
  match goal with
  | |- respects _ (materialize_row _ _ _) => apply respects_materialize_row
  | |- respects _ (plain_row _ _ _ _ _) => apply respects_plain_row
  | |- respects _ (simple_row _ _ _ _ _) => apply respects_simple_row
  | |- respects _ (rich_column_row _ _ _) => apply respects_rich_column_row
  | |- respects _ (rich_table_row _ _ _) => apply respects_rich_table_row
  | |- respects _ (first_or_none _) => apply respects_first_or_none
  end.

Ltac emitted_side :=
  intros;
  first [ apply emitted_refl | apply emitted_print
        | eapply emitted_trans; eassumption ].

Ltac emitted_steps :=
  match goal with
  | |- respects (emitted_only ?P) _ =>
      respect_steps (emitted_refl P) (emitted_trans P) (emitted_print P)
  end;
  intros;
  match goal with
  | |- respects _ (get_db_connection _ _) => apply emitted_provider; emitted_leaf
  | |- respects _ (connect _ _) => apply emitted_connect; emitted_leaf
  | |- respects _ (execute _ _) => apply emitted_execute; emitted_leaf
  | |- _ => row_leaf; emitted_side
  end.

Lemma emitted_query_sql ul cfg W sql :
  respects (emitted_only (executes_within [py "SELECT 1"; sql]))
    (query_sql ul cfg W sql).
Proof. unfold query_sql. emitted_steps. Qed.

Lemma emitted_get_table_structure cfg W table_name schema :
  respects
    (emitted_only
       (executes_within
          [py "SELECT 1"; columns_sql table_name schema;
           simple_columns_sql table_name schema; pk_sql table_name schema;
           fk_sql table_name schema; index_sql table_name schema]))
    (get_table_structure cfg W table_name schema).
Proof. unfold get_table_structure, fetch_columns, fetch_plain. emitted_steps. Qed.

Lemma emitted_list_tables cfg W schema :
  respects
    (emitted_only
       (executes_within
          [py "SELECT 1"; list_tables_sql schema; list_tables_simple_sql schema]))
    (list_tables cfg W schema).
Proof. unfold list_tables, fetch_tables. emitted_steps. Qed.

Lemma emitted_get_database_info cfg W :
  respects
    (emitted_only
       (executes_within [py "SELECT 1"; version_sql; db_name_sql; schema_sql]))
    (get_database_info cfg W).
Proof.
  unfold get_database_info. emitted_steps.
Qed.

Lemma emitted_statements (allowed : list pystr) (st st' : State) :
  emitted_only (executes_within allowed) st st' ->
  exists evs,
    db_trace st' = db_trace st ++ evs
    /\ forall q, In (Execute q) evs -> In q allowed.
Proof.
  intros (evs & H & F). exists evs. split; [exact H|].
  intros q Hin. rewrite Forall_forall in F. apply (F _ Hin).
Qed.

(* ================================================================== *)
(** ** The memoized engine *)

Lemma kept_refl st : engine_kept st st.
Proof.
  intros eng H. split; [exact H|]. exists [].
  split; [symmetry; apply app_nil_r | intros u []].
Qed.

Lemma kept_trans a b c : engine_kept a b -> engine_kept b c -> engine_kept a c.
Proof.
  intros H1 H2 eng Ha.
  destruct (H1 eng Ha) as (Hb & e1 & T1 & N1).
  destruct (H2 eng Hb) as (Hc & e2 & T2 & N2).
  split; [exact Hc|]. exists (e1 ++ e2). split.
  - rewrite T2, T1. symmetry. apply app_assoc.
  - intros u Hin. apply in_app_or in Hin. destruct Hin as [Hin | Hin];
      [apply (N1 u Hin) | apply (N2 u Hin)].
Qed.

Lemma kept_print st line :
  engine_kept st (mk_state (engine st) (stdout st ++ [line]) (db_trace st)).
Proof.
  intros eng H. split; [exact H|]. exists [].
  split; [symmetry; apply app_nil_r | intros u []].
Qed.

Lemma kept_emit ev :
  (forall u, ev <> CreateEngine u) -> respects engine_kept (emit ev).
Proof.
  intros Hev st r st' H. injection H as _ <-. intros eng He.
  split; [exact He|]. exists [ev]. split; [reflexivity|].
  intros u [Hin | []]. apply (Hev u Hin).
Qed.

Lemma kept_connect W eng : respects engine_kept (connect W eng).
Proof.
  unfold connect. respect_steps kept_refl kept_trans kept_print.
  apply kept_emit. discriminate.
Qed.

Lemma kept_execute W q : respects engine_kept (execute W q).
Proof.
  unfold execute. respect_steps kept_refl kept_trans kept_print.
  apply kept_emit. discriminate.
Qed.

(** With an engine memoized the provider returns it and does nothing
    else. *)
Lemma provider_memoized cfg W st eng :
  engine st = Some eng -> get_db_connection cfg W st = (Ok (Some eng), st).
Proof.
  destruct st as [e out tr]. simpl. intros ->. reflexivity.
Qed.

Lemma kept_provider cfg W : respects engine_kept (get_db_connection cfg W).
Proof.
  intros st r st' H eng He.
  rewrite (provider_memoized cfg W st eng He) in H. injection H as _ <-.
  apply kept_refl, He.
Qed.

Ltac kept_side :=
  intros;
  first [ apply kept_refl | apply kept_print | eapply kept_trans; eassumption ].

Ltac kept_steps :=
  respect_steps kept_refl kept_trans kept_print;
  intros;
  match goal with
  | |- respects _ (get_db_connection _ _) => apply kept_provider
  | |- respects _ (connect _ _) => apply kept_connect
  | |- respects _ (execute _ _) => apply kept_execute
  | |- _ => row_leaf; kept_side
  end.

Lemma kept_query_sql ul cfg W sql : respects engine_kept (query_sql ul cfg W sql).
Proof. unfold query_sql. kept_steps. Qed.

Lemma kept_get_table_structure cfg W table_name schema :
  respects engine_kept (get_table_structure cfg W table_name schema).
Proof. unfold get_table_structure, fetch_columns, fetch_plain. kept_steps. Qed.

Lemma kept_list_tables cfg W schema :
  respects engine_kept (list_tables cfg W schema).
Proof. unfold list_tables, fetch_tables. kept_steps. Qed.

Lemma kept_get_database_info cfg W : respects engine_kept (get_database_info cfg W).
Proof. unfold get_database_info. kept_steps. Qed.

(** X1. Once an engine is memoized, the provider and the four tools leave
    it in place, and none of them creates another engine: whatever the
    store does, the process has one engine. *)
Theorem memoized_engine_is_kept (ul : pystr -> pystr) (cfg : Config) (W : World)
  (sql table_name schema : pystr) (st : State) (eng : Engine) :
  engine st = Some eng ->
  forall st',
    In st' [snd (get_db_connection cfg W st);
            snd (query_sql ul cfg W sql st);
            snd (get_table_structure cfg W table_name schema st);
            snd (list_tables cfg W schema st);
            snd (get_database_info cfg W st)] ->
    engine st' = Some eng
    /\ exists evs,
         db_trace st' = db_trace st ++ evs
         /\ forall u, ~ In (CreateEngine u) evs.
Proof.
  intros He st' Hin.
  assert (Hk : engine_kept st st'); [|exact (Hk eng He)].
  simpl in Hin.
  destruct Hin as [<- | [<- | [<- | [<- | [<- | []]]]]].
  - apply (kept_provider cfg W st (fst (get_db_connection cfg W st))).
    apply surjective_pairing.
  - apply (kept_query_sql ul cfg W sql st (fst (query_sql ul cfg W sql st))).
    apply surjective_pairing.
  - apply (kept_get_table_structure cfg W table_name schema st
             (fst (get_table_structure cfg W table_name schema st))).
    apply surjective_pairing.
  - apply (kept_list_tables cfg W schema st (fst (list_tables cfg W schema st))).
    apply surjective_pairing.
  - apply (kept_get_database_info cfg W st (fst (get_database_info cfg W st))).
    apply surjective_pairing.
Qed.

(** X2. Besides the probe [SELECT 1] of a first acquisition, the only
    statement [query_sql] ever sends to the store is the caller's text,
    character for character: never the lower-cased or stripped copy. *)
Theorem query_sql_executes_only_given_text (ul : pystr -> pystr) (cfg : Config)
  (W : World) (sql : pystr) (st : State) :
  exists evs,
    db_trace (snd (query_sql ul cfg W sql st)) = db_trace st ++ evs
    /\ forall q, In (Execute q) evs -> q = py "SELECT 1" \/ q = sql.
Proof.
  destruct (emitted_statements [py "SELECT 1"; sql] st (snd (query_sql ul cfg W sql st)))
    as (evs & H & F).
  { apply (emitted_query_sql ul cfg W sql st (fst (query_sql ul cfg W sql st))).
    apply surjective_pairing. }
  exists evs. split; [exact H|]. intros q Hin.
  destruct (F q Hin) as [E | [E | []]]; auto.
Qed.

(** X3. The introspection tools send only their own statements:
    [get_table_structure] its five catalog queries, [list_tables] its two,
    [get_database_info] its three, each besides the probe of a first
    acquisition. *)
Theorem introspection_executes_only_catalog_queries (cfg : Config) (W : World)
  (table_name schema : pystr) (st : State) :
  (exists evs,
      db_trace (snd (get_table_structure cfg W table_name schema st))
      = db_trace st ++ evs
      /\ forall q, In (Execute q) evs ->
           In q [py "SELECT 1"; columns_sql table_name schema;
                 simple_columns_sql table_name schema; pk_sql table_name schema;
                 fk_sql table_name schema; index_sql table_name schema])
  /\ (exists evs,
        db_trace (snd (list_tables cfg W schema st)) = db_trace st ++ evs
        /\ forall q, In (Execute q) evs ->
             In q [py "SELECT 1"; list_tables_sql schema;
                   list_tables_simple_sql schema])
  /\ (exists evs,
        db_trace (snd (get_database_info cfg W st)) = db_trace st ++ evs
        /\ forall q, In (Execute q) evs ->
             In q [py "SELECT 1"; version_sql; db_name_sql; schema_sql]).
Proof.
  split; [|split]; apply emitted_statements.
  - apply (emitted_get_table_structure cfg W table_name schema st
             (fst (get_table_structure cfg W table_name schema st))).
    apply surjective_pairing.
  - apply (emitted_list_tables cfg W schema st (fst (list_tables cfg W schema st))).
    apply surjective_pairing.
  - apply (emitted_get_database_info cfg W st (fst (get_database_info cfg W st))).
    apply surjective_pairing.
Qed.

(* ================================================================== *)
(** ** Acquiring the connection *)

(** X4. A first acquisition succeeds exactly when [create_engine] and the
    probe (connect, [SELECT 1], fetch one row) raise nothing. It then
    returns the engine built from the connection string with pre-ping,
    hourly recycling and a 30 second timeout, memoizes it, and the store
    has seen the creation, one connection and the probe statement. *)
Theorem get_db_connection_first_success (cfg : Config) (W : World) (st : State) :
  engine st = None ->
  (create_engine_outcome W (CONNECTION_STRING cfg) = None ->
   probe_error W = None ->
   exists st',
     get_db_connection cfg W st
     = (Ok (Some (mk_engine (CONNECTION_STRING cfg) true 3600 30)), st')
     /\ engine st' = Some (mk_engine (CONNECTION_STRING cfg) true 3600 30)
     /\ db_trace st'
        = db_trace st ++ [CreateEngine (CONNECTION_STRING cfg); Connect;
                          Execute (py "SELECT 1")])
  /\ (forall r st',
        get_db_connection cfg W st = (Ok r, st') ->
        create_engine_outcome W (CONNECTION_STRING cfg) = None
        /\ probe_error W = None).
Proof.
  destruct st as [eng out tr]. simpl. intros ->. split.
  - intros Hce Hp. unfold probe_error in Hp.
    run_provider. rewrite Hce. run_provider.
    destruct (connect_outcome W); [discriminate Hp|]. run_provider.
    destruct (execute_outcome W (py "SELECT 1")) as [c | e]; [|discriminate Hp].
    run_provider.
    destruct (cur_rows c); [rewrite Hp|]; run_provider;
      (eexists; split; [reflexivity | split; [reflexivity|]]);
      cbn [db_trace]; repeat rewrite <- app_assoc; reflexivity.
  - intros r st' H. unfold probe_error.
    run_provider_in H. split_cases H; try discriminate H; split; reflexivity.
Qed.

(** X5. Whenever the provider returns, it returns an engine, that engine is
    the memoized one, and every later call, under any configuration and
    any store, returns the same engine without printing or touching the
    store. *)
Theorem get_db_connection_memoizes (cfg : Config) (W : World) (st : State)
  (r : option Engine) (st' : State) :
  get_db_connection cfg W st = (Ok r, st') ->
  exists eng,
    r = Some eng
    /\ engine st' = Some eng
    /\ forall cfg' W', get_db_connection cfg' W' st' = (Ok (Some eng), st').
Proof.
  destruct st as [[eng|] out tr]; intros H.
  - rewrite (provider_memoized cfg W (mk_state (Some eng) out tr) eng eq_refl) in H.
    injection H as <- <-.
    exists eng. split; [reflexivity | split; [reflexivity|]].
    intros cfg' W'. reflexivity.
  - run_provider_in H. split_cases H; try discriminate H;
      injection H as <- <-;
      (eexists; split; [reflexivity | split; [reflexivity | intros; reflexivity]]).
Qed.

Lemma provider_after_print (cfg : Config) (W : World) (st : State) (line : pystr) :
  exists st1,
    get_db_connection cfg W
      (mk_state (engine st) (stdout st ++ [line]) (db_trace st))
    = (fst (get_db_connection cfg W st), st1).
Proof.
  destruct st as [eng out tr]. cbn [engine stdout db_trace].
  rewrite (get_db_connection_ignores_stdout cfg W eng out (out ++ [line]) tr).
  eexists. apply surjective_pairing.
Qed.

(* ================================================================== *)
(** ** More on the query tool *)



Lemma materialize_cursor_fetch_error columns (c : Cursor) (e : exn) st :
  fetch_error c = Some e ->
  exists st', for_cursor (materialize_row columns) c [] st = (Raise e, st').
Proof.
  intros Hf. unfold for_cursor.
  destruct (materialize_rows_spec columns (cur_rows c) [] st) as (st' & H).
  rewrite (bind_ok _ _ _ _ _ H), Hf. exists st'. reflexivity.
Qed.

(** X7. When a text passes the guard and the connection is usable, but
    the store refuses the statement, or fails while its rows are fetched,
    [query_sql] answers [{"error": str(e), "sql": sql}]: the store's
    message as it is, the text echoed, and no partial rows. *)
Theorem query_sql_reports_store_error (ul : pystr -> pystr) (cfg : Config)
  (W : World) (sql : pystr) (st : State) (eng : Engine) (e : exn) :
  startswith (py "select") (strip (lower ul sql)) = true ->
  find (keyword_in (strip (lower ul sql))) dangerous_keywords = None ->
  fst (get_db_connection cfg W st) = Ok (Some eng) ->
  connect_outcome W = None ->
  execute_outcome W sql = Raise e
  \/ (exists c, execute_outcome W sql = Ok c /\ fetch_error c = Some e) ->
  fst (query_sql ul cfg W sql st)
  = Ok (VDict [(py "error", VStr (exn_msg e)); (py "sql", VStr sql)]).
Proof.
  intros Hs Hf Hg Hco Hex. unfold query_sql.
  match goal with |- context [try_except ?m ?h] => set (body := m); set (handler := h) end.
  assert (Hb : exists st1, body st = (Raise e, st1)).
  { subst body. cbv zeta. rewrite bind_print, Hs, Hf. cbn [negb].
    match goal with |- context [bind (get_db_connection cfg W) _ ?s] =>
      destruct (provider_after_print cfg W st
                  (py "执行SQL查询: " ++ firstn 100 sql
                   ++ (if (100 <? List.length sql)%nat then py "..." else [])))
        as (s1 & Hp) end.
    rewrite Hg in Hp. rewrite (bind_ok _ _ _ _ _ Hp).
    rewrite (bind_ok _ _ _ _ _ (connect_ok W eng s1 Hco)).
    unfold bind at 1. rewrite execute_eq.
    destruct Hex as [-> | (c & -> & Hfe)].
    - eexists. reflexivity.
    - cbv beta iota.
      match goal with |- context [bind (for_cursor _ _ _) _ ?s] =>
        destruct (materialize_cursor_fetch_error (keys c) c e s Hfe) as (s2 & H2) end.
      rewrite (bind_raise _ _ _ _ _ H2). exists s2. reflexivity. }
  destruct Hb as (st1 & Hb). rewrite (try_except_raise _ _ _ _ _ Hb). reflexivity.
Qed.

(** X8. When the connection cannot be acquired, every tool answers with
    its error mapping carrying the provider's message; [query_sql] does so
    for a text that passes the guard. No tool lets the exception out. *)
Theorem tools_report_connection_failure (ul : pystr -> pystr) (cfg : Config)
  (W : World) (sql table_name schema : pystr) (st : State) (e : exn) :
  fst (get_db_connection cfg W st) = Raise e ->
  (startswith (py "select") (strip (lower ul sql)) = true ->
   find (keyword_in (strip (lower ul sql))) dangerous_keywords = None ->
   fst (query_sql ul cfg W sql st)
   = Ok (VDict [(py "error", VStr (exn_msg e)); (py "sql", VStr sql)]))
  /\ fst (get_table_structure cfg W table_name schema st)
     = Ok (VDict [(py "error", VStr (exn_msg e)); (py "table", VStr table_name);
                  (py "schema", VStr schema)])
  /\ fst (list_tables cfg W schema st)
     = Ok (VDict [(py "error", VStr (exn_msg e)); (py "schema", VStr schema)])
  /\ fst (get_database_info cfg W st) = Ok (VDict [(py "error", VStr (exn_msg e))]).
Proof.
  intros Hg. split; [|split; [|split]].
  - intros Hs Hf. unfold query_sql.
    match goal with |- context [try_except ?m ?h] => set (body := m); set (handler := h) end.
    assert (Hb : exists st1, body st = (Raise e, st1)).
    { subst body. cbv zeta. rewrite bind_print, Hs, Hf. cbn [negb].
      destruct (provider_after_print cfg W st
                  (py "执行SQL查询: " ++ firstn 100 sql
                   ++ (if (100 <? List.length sql)%nat then py "..." else [])))
        as (s1 & Hp).
      rewrite Hg in Hp. rewrite (bind_raise _ _ _ _ _ Hp). eauto. }
    destruct Hb as (st1 & Hb). rewrite (try_except_raise _ _ _ _ _ Hb). reflexivity.
  - unfold get_table_structure.
    match goal with |- context [try_except ?m ?h] => set (body := m); set (handler := h) end.
    assert (Hb : exists st1, body st = (Raise e, st1)).
    { subst body. rewrite bind_print.
      destruct (provider_after_print cfg W st
                  (py "获取表结构信息: " ++ schema ++ py "." ++ table_name))
        as (s1 & Hp).
      rewrite Hg in Hp. rewrite (bind_raise _ _ _ _ _ Hp). eauto. }
    destruct Hb as (st1 & Hb). rewrite (try_except_raise _ _ _ _ _ Hb). reflexivity.
  - unfold list_tables.
    match goal with |- context [try_except ?m ?h] => set (body := m); set (handler := h) end.
    assert (Hb : exists st1, body st = (Raise e, st1)).
    { subst body. rewrite bind_print.
      destruct (provider_after_print cfg W st
                  (py "列出架构 '" ++ schema ++ py "' 中的所有表"))
        as (s1 & Hp).
      rewrite Hg in Hp. rewrite (bind_raise _ _ _ _ _ Hp). eauto. }
    destruct Hb as (st1 & Hb). rewrite (try_except_raise _ _ _ _ _ Hb). reflexivity.
  - unfold get_database_info.
    match goal with |- context [try_except ?m ?h] => set (body := m); set (handler := h) end.
    assert (Hb : exists st1, body st = (Raise e, st1)).
    { subst body. rewrite bind_print.
      destruct (provider_after_print cfg W st (py "获取数据库基本信息")) as (s1 & Hp).
      rewrite Hg in Hp. rewrite (bind_raise _ _ _ _ _ Hp). eauto. }
    destruct Hb as (st1 & Hb). rewrite (try_except_raise _ _ _ _ _ Hb). reflexivity.
Qed.

(** X9. In a successful answer of [query_sql], for every row of the
    cursor and every column, whatever number of cells fail, the key of the
    column holds the cell's value when the cell can be read and [None]
    when it cannot; a row with fewer cells than there are columns gets
    [None] for the columns it lacks. *)
Theorem query_sql_cell_values (ul : pystr -> pystr) (cfg : Config) (W : World)
  (sql : pystr) (st : State) (c : Cursor) (rows : list pyval) (n j : nat)
  (row : Row) (col : pystr) :
  execute_outcome W sql = Ok c ->
  result_field (query_sql ul cfg W sql st) (py "rows") = Some (VList rows) ->
  nth_error (cur_rows c) n = Some row ->
  names_key (keys c) j col ->
  exists row_dict,
    nth_error rows n = Some (VDict row_dict)
    /\ dict_get row_dict col
       = Some (match row_get row j with Ok v => VAtom v | Raise _ => VNone end)
    /\ ((List.length (cells row) <= j)%nat -> dict_get row_dict col = Some VNone).
Proof.
  intros Hc Hrows Hn Hkey.
  destruct (query_sql_fields ul cfg W sql st rows Hrows) as (c' & Hex & Hr & _ & _).
  rewrite Hc in Hex. injection Hex as <-.
  exists (row_mapping (keys c) row). split; [|split].
  - rewrite Hr, nth_error_map, Hn. reflexivity.
  - apply (row_mapping_get _ _ _ _ Hkey).
  - intros Hshort. rewrite (row_mapping_get _ _ _ _ Hkey).
    unfold cell_of, row_get.
    apply nth_error_None in Hshort. rewrite Hshort. reflexivity.
Qed.

(** X10. When the cursor names two columns alike, every row of the answer
    has fewer keys than the cursor has columns: like-named columns share
    one key. *)
Theorem query_sql_duplicate_columns_collapse (ul : pystr -> pystr) (cfg : Config)
  (W : World) (sql : pystr) (st : State) (c : Cursor) (rows : list pyval)
  (r : pyval) :
  execute_outcome W sql = Ok c ->
  result_field (query_sql ul cfg W sql st) (py "rows") = Some (VList rows) ->
  ~ NoDup (keys c) ->
  In r rows ->
  exists row_dict,
    r = VDict row_dict
    /\ (List.length (dict_keys row_dict) < List.length (keys c))%nat.
Proof.
  intros Hc Hrows Hdup Hin.
  destruct (query_sql_fields ul cfg W sql st rows Hrows) as (c' & Hex & Hr & _ & _).
  rewrite Hc in Hex. injection Hex as <-.
  rewrite Hr in Hin. apply in_map_iff in Hin. destruct Hin as (row & <- & _).
  exists (row_mapping (keys c) row). split; [reflexivity|].
  destruct (Nat.lt_ge_cases (List.length (dict_keys (row_mapping (keys c) row)))
              (List.length (keys c))) as [Hlt | Hge]; [exact Hlt|].
  exfalso. apply Hdup.
  apply (NoDup_incl_NoDup (row_mapping_nodup (keys c) row) Hge).
  intros k Hk. apply (row_mapping_keys (keys c) row k), Hk.
Qed.

(* ================================================================== *)
(** ** Rows as text *)

Lemma store_cells_app value ics1 ics2 d :
  store_cells value (ics1 ++ ics2) d
  = store_cells value ics2 (store_cells value ics1 d).
Proof.
  revert d. induction ics1 as [|[i col] t IH]; intros d; simpl;
    [reflexivity | apply IH].
Qed.

Lemma store_cells_keys value ics d k :
  In k (dict_keys (store_cells value ics d))
  <-> In k (dict_keys d) \/ In k (map snd ics).
Proof.
  revert d. induction ics as [|[i col] t IH]; intros d; simpl.
  - tauto.
  - rewrite IH, dict_keys_set. intuition.
Qed.

Lemma store_cells_get_other value ics d k :
  ~ In k (map snd ics) -> dict_get (store_cells value ics d) k = dict_get d k.
Proof.
  revert d. induction ics as [|[i col] t IH]; intros d Hnot; simpl.
  - reflexivity.
  - simpl in Hnot. rewrite IH by tauto.
    apply dict_get_set_other. intros Heq. apply Hnot. left. exact Heq.
Qed.

Lemma store_cells_get value (columns : list pystr) (j : nat) (col : pystr) :
  names_key columns j col ->
  dict_get (store_cells value (enumerate columns) []) col = Some (value j).
Proof.
  intros [Hn Hlast]. unfold enumerate.
  destruct (enumerate_split columns 0 j col Hn) as (pre & post & Hc & Hp).
  rewrite Hc. simpl. rewrite store_cells_app. simpl.
  rewrite store_cells_get_other by (rewrite Hp; exact Hlast).
  apply dict_get_set_same.
Qed.

Lemma dict_get_none_iff (d : dict) (k : pystr) :
  dict_get d k = None <-> ~ In k (dict_keys d).
Proof.
  unfold dict_keys. induction d as [|[k' v] t IH]; simpl.
  - tauto.
  - destruct (PyStr.eqb k' k) eqn:E.
    + apply eqb_eq in E. subst k'. split; [discriminate | intros H; exfalso; auto].
    + rewrite IH. split.
      * intros H [Heq | Hin]; [|auto]. subst k'. rewrite eqb_refl in E. discriminate E.
      * intros H Hin. apply H. right. exact Hin.
Qed.

Lemma text_mapping_entry (names : list pystr) (row : Row) :
  text_entry names row (text_mapping names row).
Proof.
  split.
  - intros k. unfold text_mapping. rewrite store_cells_keys, enumerate_names.
    simpl. tauto.
  - intros j col Hkey. unfold text_mapping.
    apply (store_cells_get (fun i => VStr (cell_text row i)) names j col Hkey).
Qed.

Lemma default_description_entry (names : list pystr) (row : Row) :
  text_entry_described names row (default_description (text_mapping names row)).
Proof.
  destruct (text_mapping_entry names row) as [Hkeys Hget].
  unfold default_description, dict_mem.
  destruct (dict_get (text_mapping names row) (py "description")) as [v|] eqn:E;
    cbn [negb].
  - assert (Hin : In (py "description") names).
    { apply Hkeys. destruct (in_dec (list_eq_dec N.eq_dec) (py "description")
                               (dict_keys (text_mapping names row))) as [H | H];
        [exact H|]. apply dict_get_none_iff in H. congruence. }
    split; [|split].
    + intros k. rewrite Hkeys. split; [tauto|]. intros [H | ->]; [exact H | exact Hin].
    + exact Hget.
    + intros Hnot. contradiction.
  - apply dict_get_none_iff in E. rewrite Hkeys in E. split; [|split].
    + intros k. rewrite dict_keys_set, Hkeys. tauto.
    + intros j col Hkey. rewrite dict_get_set_other; [apply (Hget j col Hkey)|].
      intros Heq. apply E. rewrite Heq. destruct Hkey as [Hn _].
      apply (nth_error_In _ _ Hn).
    + intros _. apply dict_get_set_same.
Qed.

Lemma map_entries (entry : Row -> dict -> Prop) (f : Row -> dict) (rows : list Row) :
  (forall row, entry row (f row)) ->
  entries entry rows (map (fun row => VDict (f row)) rows).
Proof.
  intros H. split; [apply length_map|].
  intros n row Hn. exists (f row). split; [|apply H].
  rewrite nth_error_map, Hn. reflexivity.
Qed.

Lemma text_cell_loop_spec (on_error : pystr -> exn -> M unit) :
  (forall col err st, exists st', on_error col err st = (Ok tt, st')) ->
  forall row ics d st,
    exists st',
      for_each (text_cell on_error row) ics d st
      = (Ok (store_cells (fun i => VStr (cell_text row i)) ics d), st').
Proof.
  intros Hh row ics. induction ics as [|[i col] t IH]; intros d st; simpl.
  - exists st. reflexivity.
  - unfold bind at 1. unfold text_cell, try_except, bind at 1, lift, cell_text.
    destruct (row_get row i) as [v | e].
    + destruct v; apply IH.
    + unfold bind at 1. destruct (Hh col e st) as (st1 & ->). apply IH.
Qed.

Ltac first_attempt_appends H :=
  let acc := fresh "acc" in
  let st := fresh "st" in
  let st1 := fresh "st" in
  let Hd := fresh "Hd" in
  intros acc ? st;
  match goal with
  | |- context [for_each (text_cell ?h ?r) ?ics] =>
      destruct (text_cell_loop_spec h H r ics [] st) as (st1 & Hd)
  end;
  exists st1; unfold try_except; rewrite (bind_ok _ _ _ _ _ Hd); reflexivity.

Lemma plain_row_maps label key names :
  appends (fun row => VDict (text_mapping names row)) (plain_row label key names).
Proof. unfold plain_row. first_attempt_appends silently_total. Qed.

Lemma simple_row_maps label key names :
  appends (fun row => VDict (default_description (text_mapping names row)))
    (simple_row label key names).
Proof. unfold simple_row. first_attempt_appends silently_total. Qed.

Lemma rich_column_row_maps names :
  appends (fun row => VDict (text_mapping names row)) (rich_column_row names).
Proof. unfold rich_column_row. first_attempt_appends log_cell_error_total. Qed.

Lemma rich_table_row_maps names :
  appends (fun row => VDict (text_mapping names row)) (rich_table_row names).
Proof. unfold rich_table_row. first_attempt_appends log_cell_error_total. Qed.

Lemma for_each_maps f body (rows : list Row) :
  appends f body ->
  forall acc st,
    exists st', for_each body rows acc st = (Ok (acc ++ map f rows), st').
Proof.
  intros Hb. induction rows as [|row t IH]; intros acc st; simpl.
  - exists st. rewrite app_nil_r. reflexivity.
  - destruct (Hb acc row st) as (st1 & H1). rewrite (bind_ok _ _ _ _ _ H1).
    destruct (IH (acc ++ [f row]) st1) as (st2 & H2).
    exists st2. rewrite H2, <- app_assoc. reflexivity.
Qed.

Lemma for_cursor_maps f body (c : Cursor) st :
  appends f body -> fetch_error c = None ->
  exists st', for_cursor body c [] st = (Ok (map f (cur_rows c)), st').
Proof.
  intros Hb Hf. unfold for_cursor.
  destruct (for_each_maps f body (cur_rows c) Hb [] st) as (st' & H).
  rewrite (bind_ok _ _ _ _ _ H), Hf. exists st'. reflexivity.
Qed.

Section Reading.

Variable W : World.

Lemma execute_then_read_maps (sql : pystr) (c : Cursor)
  (f : list pystr -> Row -> pyval)
  (body : list pystr -> list pyval -> Row -> M (list pyval)) (st : State) :
  (forall names, appends (f names) (body names)) ->
  execute_outcome W sql = Ok c ->
  fetch_error c = None ->
  exists st',
    (result <- execute W sql ;; for_cursor (body (keys result)) result []) st
    = (Ok (map (f (keys c)) (cur_rows c)), st').
Proof.
  intros Hb Hex Hf. unfold bind at 1. rewrite execute_eq, Hex. cbv beta iota.
  apply for_cursor_maps; [apply Hb | exact Hf].
Qed.

Lemma execute_then_loop_maps {A} (sql : pystr) (c : Cursor)
  (f : list pystr -> Row -> pyval)
  (body : list pystr -> list pyval -> Row -> M (list pyval))
  (k : list pyval -> M A) (st : State) :
  (forall names, appends (f names) (body names)) ->
  execute_outcome W sql = Ok c ->
  fetch_error c = None ->
  exists st',
    (result <- execute W sql ;;
     rows <- for_cursor (body (keys result)) result [] ;;
     k rows) st
    = k (map (f (keys c)) (cur_rows c)) st'.
Proof.
  intros Hb Hex Hf. unfold bind at 1. rewrite execute_eq, Hex. cbv beta iota.
  match goal with |- context [bind (for_cursor _ _ _) _ ?s] =>
    destruct (for_cursor_maps (f (keys c)) (body (keys c)) c s (Hb _) Hf)
      as (st' & H) end.
  rewrite (bind_ok _ _ _ _ _ H). exists st'. reflexivity.
Qed.

Lemma fetch_plain_maps eng sql label key (c : Cursor) st :
  connect_outcome W = None ->
  execute_outcome W sql = Ok c ->
  fetch_error c = None ->
  exists st',
    fetch_plain W (Some eng) sql label key st
    = (Ok (map (fun row => VDict (text_mapping (keys c) row)) (cur_rows c)), st').
Proof.
  intros Hco Hex Hf. unfold fetch_plain.
  rewrite (bind_ok _ _ _ _ _ (connect_ok W eng st Hco)).
  apply (execute_then_read_maps sql c
           (fun names row => VDict (text_mapping names row))
           (plain_row label key)); [intros; apply plain_row_maps | exact Hex | exact Hf].
Qed.

Lemma fetch_tables_maps_rich eng schema (c : Cursor) st :
  connect_outcome W = None ->
  execute_outcome W (list_tables_sql schema) = Ok c ->
  fetch_error c = None ->
  exists st',
    fetch_tables W (Some eng) schema st
    = (Ok (map (fun row => VDict (text_mapping (keys c) row)) (cur_rows c)), st').
Proof.
  intros Hco Hex Hf. unfold fetch_tables.
  match goal with |- context [try_except ?m ?h] => set (rich := m); set (simple := h) end.
  assert (H : exists st', rich st
             = (Ok (map (fun row => VDict (text_mapping (keys c) row)) (cur_rows c)),
                st')).
  { subst rich. rewrite (bind_ok _ _ _ _ _ (connect_ok W eng st Hco)), bind_print.
    apply (execute_then_read_maps (list_tables_sql schema) c
             (fun names row => VDict (text_mapping names row)) rich_table_row);
      [intros; apply rich_table_row_maps | exact Hex | exact Hf]. }
  destruct H as (st' & H). exists st'. apply try_except_ok, H.
Qed.

Lemma fetch_tables_maps_simple eng schema (c : Cursor) st :
  connect_outcome W = None ->
  query_fails W (list_tables_sql schema) ->
  execute_outcome W (list_tables_simple_sql schema) = Ok c ->
  fetch_error c = None ->
  exists st',
    fetch_tables W (Some eng) schema st
    = (Ok (map (fun row => VDict (default_description (text_mapping (keys c) row)))
             (cur_rows c)), st').
Proof.
  intros Hco Hq Hex Hf. unfold fetch_tables.
  match goal with |- context [try_except ?m ?h] => set (rich := m); set (simple := h) end.
  assert (H1 : exists e st1, rich st = (Raise e, st1)).
  { subst rich. rewrite (bind_ok _ _ _ _ _ (connect_ok W eng st Hco)), bind_print.
    apply execute_then_read_fails; [apply rich_table_row_appends | exact Hq]. }
  destruct H1 as (e & st1 & H1). rewrite (try_except_raise _ _ _ _ _ H1).
  subst simple. cbv beta. rewrite bind_print.
  match goal with |- context [bind (connect W (Some eng)) _ ?s] =>
    rewrite (bind_ok _ _ _ _ _ (connect_ok W eng s Hco)) end.
  rewrite bind_print.
  apply (execute_then_read_maps (list_tables_simple_sql schema) c
           (fun names row => VDict (default_description (text_mapping names row)))
           (simple_row (py "处理简化表信息时出错: ") (py "table_name")));
    [intros; apply simple_row_maps | exact Hex | exact Hf].
Qed.

Lemma fetch_columns_maps_rich eng table_name schema (c : Cursor) st :
  connect_outcome W = None ->
  execute_outcome W (columns_sql table_name schema) = Ok c ->
  fetch_error c = None ->
  exists st',
    fetch_columns W (Some eng) table_name schema st
    = (Ok (map (fun row => VDict (text_mapping (keys c) row)) (cur_rows c)), st').
Proof.
  intros Hco Hex Hf. unfold fetch_columns.
  match goal with |- context [try_except ?m ?h] => set (rich := m); set (simple := h) end.
  assert (H : exists st', rich st
             = (Ok (map (fun row => VDict (text_mapping (keys c) row)) (cur_rows c)),
                st')).
  { subst rich. rewrite (bind_ok _ _ _ _ _ (connect_ok W eng st Hco)), bind_print.
    match goal with |- context [bind (execute W _) _ ?s] =>
      destruct (execute_then_loop_maps (columns_sql table_name schema) c
                  (fun names row => VDict (text_mapping names row)) rich_column_row
                  (fun columns =>
                     print (py "获取到 " ++ count_text columns ++ py " 个列信息") ;;
                     ret columns) s
                  rich_column_row_maps Hex Hf) as (st' & H) end.
    rewrite H. eexists. reflexivity. }
  destruct H as (st' & H). exists st'. apply try_except_ok, H.
Qed.

Lemma fetch_columns_maps_simple eng table_name schema (c : Cursor) st :
  connect_outcome W = None ->
  query_fails W (columns_sql table_name schema) ->
  execute_outcome W (simple_columns_sql table_name schema) = Ok c ->
  fetch_error c = None ->
  exists st',
    fetch_columns W (Some eng) table_name schema st
    = (Ok (map (fun row => VDict (default_description (text_mapping (keys c) row)))
             (cur_rows c)), st').
Proof.
  intros Hco Hq Hex Hf. unfold fetch_columns.
  match goal with |- context [try_except ?m ?h] => set (rich := m); set (simple := h) end.
  assert (H1 : exists e st1, rich st = (Raise e, st1)).
  { subst rich. rewrite (bind_ok _ _ _ _ _ (connect_ok W eng st Hco)), bind_print.
    apply execute_then_loop_fails; [apply rich_column_row_appends | exact Hq]. }
  destruct H1 as (e & st1 & H1). rewrite (try_except_raise _ _ _ _ _ H1).
  subst simple. cbv beta. rewrite bind_print.
  match goal with |- context [bind (connect W (Some eng)) _ ?s] =>
    rewrite (bind_ok _ _ _ _ _ (connect_ok W eng s Hco)) end.
  rewrite bind_print.
  match goal with |- context [bind (execute W _) _ ?s] =>
    destruct (execute_then_loop_maps (simple_columns_sql table_name schema) c
                (fun names row => VDict (default_description (text_mapping names row)))
                (simple_row (py "处理简化列信息时出错: ") (py "column_name"))
                (fun columns =>
                   print (py "获取到 " ++ count_text columns ++ py " 个列信息") ;;
                   ret columns) s
                (simple_row_maps _ _) Hex Hf) as (st' & H) end.
  rewrite H. eexists. reflexivity.
Qed.

End Reading.

(* ================================================================== *)
(** ** What the introspection tools return *)

Section Answers.

Variable cfg : Config.
Variable W : World.

Lemma list_tables_answer (schema : pystr) (st : State) (eng : Engine)
  (tables : list pyval) :
  fst (get_db_connection cfg W st) = Ok (Some eng) ->
  (forall s, exists s', fetch_tables W (Some eng) schema s = (Ok tables, s')) ->
  fst (list_tables cfg W schema st)
  = Ok (VDict [(py "tables", VList tables);
               (py "count", VInt (Z.of_nat (List.length tables)))]).
Proof.
  intros Hg Hft. unfold list_tables.
  match goal with |- context [try_except ?m ?h] => set (body := m); set (handler := h) end.
  assert (Hb : exists st1,
             body st = (Ok (VDict [(py "tables", VList tables);
                                   (py "count", VInt (Z.of_nat (List.length tables)))]),
                        st1)).
  { subst body. rewrite bind_print.
    destruct (provider_after_print cfg W st
                (py "列出架构 '" ++ schema ++ py "' 中的所有表")) as (s1 & Hp).
    rewrite Hg in Hp. rewrite (bind_ok _ _ _ _ _ Hp).
    destruct (Hft s1) as (s2 & H2). rewrite (bind_ok _ _ _ _ _ H2), bind_print.
    eexists. reflexivity. }
  destruct Hb as (st1 & Hb). rewrite (try_except_ok _ _ _ _ _ Hb). reflexivity.
Qed.

(** X11. With a usable connection and a table query that runs on its
    first tier, [list_tables] returns one mapping per row of the cursor,
    in the cursor's order; its keys are the cursor's column names and
    every value is text: [str(value)], or the empty string for [None] and
    for a cell that cannot be read. *)
Theorem list_tables_rich_entries (schema : pystr) (st : State) (eng : Engine)
  (c : Cursor) :
  fst (get_db_connection cfg W st) = Ok (Some eng) ->
  connect_outcome W = None ->
  execute_outcome W (list_tables_sql schema) = Ok c ->
  fetch_error c = None ->
  exists tables,
    fst (list_tables cfg W schema st)
    = Ok (VDict [(py "tables", VList tables);
                 (py "count", VInt (Z.of_nat (List.length tables)))])
    /\ entries (text_entry (keys c)) (cur_rows c) tables.
Proof.
  intros Hg Hco Hex Hf.
  exists (map (fun row => VDict (text_mapping (keys c) row)) (cur_rows c)). split.
  - apply (list_tables_answer schema st eng); [exact Hg|].
    intros s. apply fetch_tables_maps_rich; assumption.
  - apply map_entries. intros row. apply text_mapping_entry.
Qed.

(** X12. When the first tier of the table query cannot be run and the
    simplified one can, [list_tables] returns one mapping per row of the
    simplified cursor, as text, and every mapping has a [description]
    key, holding the empty string when the cursor has no such column. *)
Theorem list_tables_simple_entries (schema : pystr) (st : State) (eng : Engine)
  (c : Cursor) :
  fst (get_db_connection cfg W st) = Ok (Some eng) ->
  connect_outcome W = None ->
  query_fails W (list_tables_sql schema) ->
  execute_outcome W (list_tables_simple_sql schema) = Ok c ->
  fetch_error c = None ->
  exists tables,
    fst (list_tables cfg W schema st)
    = Ok (VDict [(py "tables", VList tables);
                 (py "count", VInt (Z.of_nat (List.length tables)))])
    /\ entries (text_entry_described (keys c)) (cur_rows c) tables.
Proof.
  intros Hg Hco Hq Hex Hf.
  exists (map (fun row => VDict (default_description (text_mapping (keys c) row)))
            (cur_rows c)). split.
  - apply (list_tables_answer schema st eng); [exact Hg|].
    intros s. apply fetch_tables_maps_simple; assumption.
  - apply (map_entries (text_entry_described (keys c))
             (fun row => default_description (text_mapping (keys c) row))).
    intros row. apply default_description_entry.
Qed.

(** X13. When neither tier of the table query can be run, [list_tables]
    answers [{"error": ..., "schema": schema}], and the error is that of
    the simplified query: the failure of the first tier is only
    printed. *)
Theorem list_tables_both_tiers_fail (schema : pystr) (st : State) (eng : Engine)
  (e : exn) :
  fst (get_db_connection cfg W st) = Ok (Some eng) ->
  connect_outcome W = None ->
  query_fails W (list_tables_sql schema) ->
  execute_outcome W (list_tables_simple_sql schema) = Raise e
  \/ (exists c, execute_outcome W (list_tables_simple_sql schema) = Ok c
                /\ fetch_error c = Some e) ->
  fst (list_tables cfg W schema st)
  = Ok (VDict [(py "error", VStr (exn_msg e)); (py "schema", VStr schema)]).
Proof.
  intros Hg Hco Hq Hex. unfold list_tables.
  match goal with |- context [try_except ?m ?h] => set (body := m); set (handler := h) end.
  assert (Hb : exists st1, body st = (Raise e, st1)).
  { subst body. rewrite bind_print.
    destruct (provider_after_print cfg W st
                (py "列出架构 '" ++ schema ++ py "' 中的所有表")) as (s1 & Hp).
    rewrite Hg in Hp. rewrite (bind_ok _ _ _ _ _ Hp).
    assert (Hft : exists s2, fetch_tables W (Some eng) schema s1 = (Raise e, s2)).
    { unfold fetch_tables.
      match goal with |- context [try_except ?m ?h] => set (rich := m); set (simple := h) end.
      assert (H1 : exists e1 st1, rich s1 = (Raise e1, st1)).
      { subst rich. rewrite (bind_ok _ _ _ _ _ (connect_ok W eng s1 Hco)), bind_print.
        apply execute_then_read_fails; [apply rich_table_row_appends | exact Hq]. }
      destruct H1 as (e1 & st1 & H1). rewrite (try_except_raise _ _ _ _ _ H1).
      subst simple. cbv beta. rewrite bind_print.
      match goal with |- context [bind (connect W (Some eng)) _ ?s] =>
        rewrite (bind_ok _ _ _ _ _ (connect_ok W eng s Hco)) end.
      rewrite bind_print. unfold bind at 1. rewrite execute_eq.
      destruct Hex as [-> | (c & -> & Hfe)]; cbv beta iota.
      - eexists. reflexivity.
      - unfold for_cursor.
        match goal with |- context [bind (for_each ?b ?l ?a) _ ?s] =>
          destruct (for_each_appends b l (simple_row_appends _ _ _) a s)
            as (acc & s3 & H3 & _) end.
        rewrite (bind_ok _ _ _ _ _ H3), Hfe. eexists. reflexivity. }
    destruct Hft as (s2 & Hft). rewrite (bind_raise _ _ _ _ _ Hft). eauto. }
  destruct Hb as (st1 & Hb). rewrite (try_except_raise _ _ _ _ _ Hb). reflexivity.
Qed.

Lemma get_table_structure_answer (table_name schema : pystr) (st : State)
  (eng : Engine) (columns pks fks idxs : list pyval) :
  fst (get_db_connection cfg W st) = Ok (Some eng) ->
  (forall s, exists s',
      fetch_columns W (Some eng) table_name schema s = (Ok columns, s')) ->
  (forall s, exists s',
      fetch_plain W (Some eng) (pk_sql table_name schema)
        (py "处理主键信息时出错: ") (py "column_name") s = (Ok pks, s')) ->
  (forall s, exists s',
      fetch_plain W (Some eng) (fk_sql table_name schema)
        (py "处理外键信息时出错: ") (py "fk_name") s = (Ok fks, s')) ->
  (forall s, exists s',
      fetch_plain W (Some eng) (index_sql table_name schema)
        (py "处理索引信息时出错: ") (py "index_name") s = (Ok idxs, s')) ->
  fst (get_table_structure cfg W table_name schema st)
  = Ok (VDict [(py "columns", VList columns);
               (py "primary_keys", VList pks);
               (py "foreign_keys", VList fks);
               (py "indexes", VList idxs)]).
Proof.
  intros Hg Hc Hp Hf Hi. unfold get_table_structure.
  match goal with |- context [try_except ?m ?h] => set (body := m); set (handler := h) end.
  assert (Hb : exists st1,
             body st = (Ok (VDict [(py "columns", VList columns);
                                   (py "primary_keys", VList pks);
                                   (py "foreign_keys", VList fks);
                                   (py "indexes", VList idxs)]), st1)).
  { subst body. rewrite bind_print.
    destruct (provider_after_print cfg W st
                (py "获取表结构信息: " ++ schema ++ py "." ++ table_name)) as (s1 & H1).
    rewrite Hg in H1. rewrite (bind_ok _ _ _ _ _ H1).
    destruct (Hc s1) as (s2 & H2). rewrite (bind_ok _ _ _ _ _ H2).
    destruct (Hp s2) as (s3 & H3). rewrite (bind_ok _ _ _ _ _ H3), bind_print.
    match goal with |- context [bind (fetch_plain _ _ (fk_sql _ _) _ _) _ ?s] =>
      destruct (Hf s) as (s4 & H4) end.
    rewrite (bind_ok _ _ _ _ _ H4), bind_print.
    match goal with |- context [bind (fetch_plain _ _ (index_sql _ _) _ _) _ ?s] =>
      destruct (Hi s) as (s5 & H5) end.
    rewrite (bind_ok _ _ _ _ _ H5), bind_print, bind_print.
    eexists. reflexivity. }
  destruct Hb as (st1 & Hb). rewrite (try_except_ok _ _ _ _ _ Hb). reflexivity.
Qed.

(** X14. With a usable connection and four sub-queries that run
    ([columns] on either tier), [get_table_structure] returns four lists,
    each with one text mapping per row of its cursor, in order; the
    columns read on the simplified tier carry a [description] key. *)
Theorem get_table_structure_entries (table_name schema : pystr) (st : State)
  (eng : Engine) (simplified : bool) (c1 c2 c3 c4 : Cursor) :
  fst (get_db_connection cfg W st) = Ok (Some eng) ->
  connect_outcome W = None ->
  (if simplified
   then query_fails W (columns_sql table_name schema)
        /\ execute_outcome W (simple_columns_sql table_name schema) = Ok c1
   else execute_outcome W (columns_sql table_name schema) = Ok c1) ->
  execute_outcome W (pk_sql table_name schema) = Ok c2 ->
  execute_outcome W (fk_sql table_name schema) = Ok c3 ->
  execute_outcome W (index_sql table_name schema) = Ok c4 ->
  fetch_error c1 = None -> fetch_error c2 = None ->
  fetch_error c3 = None -> fetch_error c4 = None ->
  exists columns pks fks idxs,
    fst (get_table_structure cfg W table_name schema st)
    = Ok (VDict [(py "columns", VList columns);
                 (py "primary_keys", VList pks);
                 (py "foreign_keys", VList fks);
                 (py "indexes", VList idxs)])
    /\ (if simplified
        then entries (text_entry_described (keys c1)) (cur_rows c1) columns
        else entries (text_entry (keys c1)) (cur_rows c1) columns)
    /\ entries (text_entry (keys c2)) (cur_rows c2) pks
    /\ entries (text_entry (keys c3)) (cur_rows c3) fks
    /\ entries (text_entry (keys c4)) (cur_rows c4) idxs.
Proof.
  intros Hg Hco H1 H2 H3 H4 F1 F2 F3 F4.
  exists (if simplified
          then map (fun row => VDict (default_description (text_mapping (keys c1) row)))
                 (cur_rows c1)
          else map (fun row => VDict (text_mapping (keys c1) row)) (cur_rows c1)).
  exists (map (fun row => VDict (text_mapping (keys c2) row)) (cur_rows c2)).
  exists (map (fun row => VDict (text_mapping (keys c3) row)) (cur_rows c3)).
  exists (map (fun row => VDict (text_mapping (keys c4) row)) (cur_rows c4)).
  split; [|split; [|split; [|split]]].
  - apply (get_table_structure_answer table_name schema st eng); [exact Hg | | | | ].
    + intros s. destruct simplified.
      * destruct H1 as [Hq Hex]. apply fetch_columns_maps_simple; assumption.
      * apply fetch_columns_maps_rich; assumption.
    + intros s. apply fetch_plain_maps; assumption.
    + intros s. apply fetch_plain_maps; assumption.
    + intros s. apply fetch_plain_maps; assumption.
  - destruct simplified.
    + apply (map_entries (text_entry_described (keys c1))
               (fun row => default_description (text_mapping (keys c1) row))).
      intros row. apply default_description_entry.
    + apply map_entries. intros row. apply text_mapping_entry.
  - apply map_entries. intros row. apply text_mapping_entry.
  - apply map_entries. intros row. apply text_mapping_entry.
  - apply map_entries. intros row. apply text_mapping_entry.
Qed.

(** X15. For a table the catalog does not know (the four queries run and
    find no row), [get_table_structure] answers with four empty lists,
    not with an error. *)
Theorem get_table_structure_unknown_table (table_name schema : pystr) (st : State)
  (eng : Engine) (c1 c2 c3 c4 : Cursor) :
  fst (get_db_connection cfg W st) = Ok (Some eng) ->
  connect_outcome W = None ->
  execute_outcome W (columns_sql table_name schema) = Ok c1 ->
  execute_outcome W (pk_sql table_name schema) = Ok c2 ->
  execute_outcome W (fk_sql table_name schema) = Ok c3 ->
  execute_outcome W (index_sql table_name schema) = Ok c4 ->
  (forall c, In c [c1; c2; c3; c4] -> cur_rows c = [] /\ fetch_error c = None) ->
  fst (get_table_structure cfg W table_name schema st)
  = Ok (VDict [(py "columns", VList []);
               (py "primary_keys", VList []);
               (py "foreign_keys", VList []);
               (py "indexes", VList [])]).
Proof.
  intros Hg Hco H1 H2 H3 H4 Hempty.
  destruct (Hempty c1) as [R1 F1]; [simpl; tauto|].
  destruct (Hempty c2) as [R2 F2]; [simpl; tauto|].
  destruct (Hempty c3) as [R3 F3]; [simpl; tauto|].
  destruct (Hempty c4) as [R4 F4]; [simpl; tauto|].
  apply (get_table_structure_answer table_name schema st eng); [exact Hg | | | | ];
    intros s.
  - destruct (fetch_columns_maps_rich W eng table_name schema c1 s Hco H1 F1) as (s' & H).
    rewrite R1 in H. exists s'. exact H.
  - destruct (fetch_plain_maps W eng _ (py "处理主键信息时出错: ") (py "column_name")
                c2 s Hco H2 F2) as (s' & H).
    rewrite R2 in H. exists s'. exact H.
  - destruct (fetch_plain_maps W eng _ (py "处理外键信息时出错: ") (py "fk_name")
                c3 s Hco H3 F3) as (s' & H).
    rewrite R3 in H. exists s'. exact H.
  - destruct (fetch_plain_maps W eng _ (py "处理索引信息时出错: ") (py "index_name")
                c4 s Hco H4 F4) as (s' & H).
    rewrite R4 in H. exists s'. exact H.
Qed.

End Answers.

(* ================================================================== *)
(** ** The database information tool *)

Lemma fetchone_first {A} (c : Cursor) (k : dbval -> M A) (st : State) :
  (result <- fetchone c ;; value <- first_or_none result ;; k value) st
  = match first_value c with
    | Ok v => k v st
    | Raise e => (Raise e, st)
    end.
Proof.
  unfold first_value, fetchone, first_or_none.
  destruct (cur_rows c) as [|row t].
  - destruct (fetch_error c); reflexivity.
  - unfold bind at 1, ret. destruct (cells row) as [|x xs].
    + reflexivity.
    + unfold bind, lift. destruct (row_get row 0); reflexivity.
Qed.

Lemma first_cells_loop (rows : list Row) (values : list dbval) (acc : list pyval)
  (st : State) :
  Forall2 (fun row v => row_get row 0 = Ok v) rows values ->
  for_each
    (fun schemas row => v <- lift (row_get row 0) ;; ret (append schemas (VAtom v)))
    rows acc st
  = (Ok (acc ++ map VAtom values), st).
Proof.
  intros H. revert acc. induction H as [|row v rows values Hv _ IH]; intros acc; simpl.
  - rewrite app_nil_r. reflexivity.
  - unfold bind at 1. unfold bind at 1, lift. rewrite Hv. unfold ret, append.
    rewrite IH, <- app_assoc. reflexivity.
Qed.

Lemma first_cells_loop_fails (good : list Row) (values : list dbval) (bad : Row)
  (rest : list Row) (e : exn) (acc : list pyval) (st : State) :
  Forall2 (fun row v => row_get row 0 = Ok v) good values ->
  row_get bad 0 = Raise e ->
  for_each
    (fun schemas row => v <- lift (row_get row 0) ;; ret (append schemas (VAtom v)))
    (good ++ bad :: rest) acc st
  = (Raise e, st).
Proof.
  intros H Hbad. revert acc. induction H as [|row v rows values Hv _ IH]; intros acc; simpl.
  - unfold bind at 1. unfold bind at 1, lift. rewrite Hbad. reflexivity.
  - unfold bind at 1. unfold bind at 1, lift. rewrite Hv. unfold ret, append.
    apply IH.
Qed.

Section Information.

Variable cfg : Config.
Variable W : World.

(** X16. With a usable connection and three statements that run,
    [get_database_info] returns the first cell of the first row of the
    name and version queries ([None] when there is no row), the first
    cells of the schema rows in the order of the cursor, each as the store
    gave it, and the host, port, database and user of the configuration:
    four keys, none of them the password. *)
Theorem get_database_info_answer (st : State) (eng : Engine)
  (c1 c2 c3 : Cursor) (version name : dbval) (schemas : list dbval) :
  fst (get_db_connection cfg W st) = Ok (Some eng) ->
  connect_outcome W = None ->
  execute_outcome W version_sql = Ok c1 -> first_value c1 = Ok version ->
  execute_outcome W db_name_sql = Ok c2 -> first_value c2 = Ok name ->
  execute_outcome W schema_sql = Ok c3 -> fetch_error c3 = None ->
  Forall2 (fun row v => row_get row 0 = Ok v) (cur_rows c3) schemas ->
  fst (get_database_info cfg W st)
  = Ok (VDict [(py "database_name", VAtom name);
               (py "version", VAtom version);
               (py "schemas", VList (map VAtom schemas));
               (py "connection",
                VDict [(py "host", env_value (DB_HOST cfg));
                       (py "port", env_value (DB_PORT cfg));
                       (py "database", env_value (DB_NAME cfg));
                       (py "user", env_value (DB_USER cfg))])]).
Proof.
  intros Hg Hco H1 V1 H2 V2 H3 F3 Hs. unfold get_database_info.
  match goal with |- context [try_except ?m ?h] => set (body := m); set (handler := h) end.
  assert (Hb : exists st1,
             fst (body st)
             = Ok (VDict [(py "database_name", VAtom name);
                          (py "version", VAtom version);
                          (py "schemas", VList (map VAtom schemas));
                          (py "connection",
                           VDict [(py "host", env_value (DB_HOST cfg));
                                  (py "port", env_value (DB_PORT cfg));
                                  (py "database", env_value (DB_NAME cfg));
                                  (py "user", env_value (DB_USER cfg))])])
             /\ snd (body st) = st1).
  { subst body. rewrite bind_print.
    destruct (provider_after_print cfg W st (py "获取数据库基本信息")) as (s1 & Hp).
    rewrite Hg in Hp. rewrite (bind_ok _ _ _ _ _ Hp).
    rewrite (bind_ok _ _ _ _ _ (connect_ok W eng s1 Hco)).
    unfold bind at 1. rewrite execute_eq, H1. cbv beta iota.
    rewrite fetchone_first, V1.
    unfold bind at 1. rewrite execute_eq, H2. cbv beta iota.
    rewrite fetchone_first, V2.
    unfold bind at 1. rewrite execute_eq, H3. cbv beta iota.
    unfold for_cursor. unfold bind at 1. unfold bind at 1.
    rewrite (first_cells_loop _ _ _ _ Hs), F3. cbv beta iota.
    eexists. split; reflexivity. }
  destruct Hb as (st1 & Hb & _). unfold try_except.
  destruct (body st) as [[v | e] s]; cbn [fst] in *; [exact Hb | discriminate Hb].
Qed.

(** X17. [get_database_info] has no per-cell tolerance: if the first cell
    of one schema row cannot be read, the whole answer is
    [{"error": str(e)}], although the name, the version and the earlier
    schema rows were read. *)
Theorem get_database_info_bad_schema_cell (st : State) (eng : Engine)
  (c1 c2 c3 : Cursor) (version name : dbval) (good rest : list Row)
  (values : list dbval) (bad : Row) (e : exn) :
  fst (get_db_connection cfg W st) = Ok (Some eng) ->
  connect_outcome W = None ->
  execute_outcome W version_sql = Ok c1 -> first_value c1 = Ok version ->
  execute_outcome W db_name_sql = Ok c2 -> first_value c2 = Ok name ->
  execute_outcome W schema_sql = Ok c3 ->
  cur_rows c3 = good ++ bad :: rest ->
  Forall2 (fun row v => row_get row 0 = Ok v) good values ->
  row_get bad 0 = Raise e ->
  fst (get_database_info cfg W st) = Ok (VDict [(py "error", VStr (exn_msg e))]).
Proof.
  intros Hg Hco H1 V1 H2 V2 H3 Hrows Hgood Hbad. unfold get_database_info.
  match goal with |- context [try_except ?m ?h] => set (body := m); set (handler := h) end.
  assert (Hb : exists st1, body st = (Raise e, st1)).
  { subst body. rewrite bind_print.
    destruct (provider_after_print cfg W st (py "获取数据库基本信息")) as (s1 & Hp).
    rewrite Hg in Hp. rewrite (bind_ok _ _ _ _ _ Hp).
    rewrite (bind_ok _ _ _ _ _ (connect_ok W eng s1 Hco)).
    unfold bind at 1. rewrite execute_eq, H1. cbv beta iota.
    rewrite fetchone_first, V1.
    unfold bind at 1. rewrite execute_eq, H2. cbv beta iota.
    rewrite fetchone_first, V2.
    unfold bind at 1. rewrite execute_eq, H3. cbv beta iota.
    unfold for_cursor. unfold bind at 1. unfold bind at 1.
    rewrite Hrows, (first_cells_loop_fails _ _ _ _ _ _ _ Hgood Hbad).
    eexists. reflexivity. }
  destruct Hb as (st1 & Hb). rewrite (try_except_raise _ _ _ _ _ Hb). reflexivity.
Qed.

End Information.

(** X18. With the engine memoized, what [get_database_info] returns, prints
    and sends to the store does not depend on the configured password:
    two configurations that differ in nothing else give the same run. *)
Theorem get_database_info_ignores_password (cfg cfg' : Config) (W : World)
  (st : State) (eng : Engine) :
  engine st = Some eng ->
  DB_HOST cfg = DB_HOST cfg' -> DB_USER cfg = DB_USER cfg' ->
  DB_NAME cfg = DB_NAME cfg' -> DB_PORT cfg = DB_PORT cfg' ->
  get_database_info cfg W st = get_database_info cfg' W st.
Proof.
  destruct st as [e0 out tr]. simpl. intros -> Hh Hu Hn Hp.
  unfold get_database_info, try_except.
  rewrite !bind_print. cbn [engine stdout db_trace].
  repeat match goal with
         | |- context [bind (get_db_connection ?c W) _ ?s] =>
             rewrite (bind_ok _ _ _ _ _ (provider_memoized c W s eng eq_refl))
         end.
  rewrite Hh, Hn, Hp, Hu. reflexivity.
Qed.

(* ================================================================== *)
(** ** The further properties at sample inputs *)

Lemma memoized_engine_is_kept_witness :
  engine memoized_state = Some sample_engine
  /\ engine (snd (query_sql identity_lower cfg_sample W_ok (py "SELECT a, b FROM t")
                    memoized_state)) = Some sample_engine
  /\ exists evs,
       db_trace (snd (query_sql identity_lower cfg_sample W_ok
                        (py "SELECT a, b FROM t") memoized_state))
       = db_trace memoized_state ++ evs
       /\ forall u, ~ In (CreateEngine u) evs.
Proof.
  split; [reflexivity|].
  apply (memoized_engine_is_kept identity_lower cfg_sample W_ok
           (py "SELECT a, b FROM t") (py "Orders") (py "dbo") memoized_state
           sample_engine).
  - reflexivity.
  - right. left. reflexivity.
Defined.

Lemma get_db_connection_first_success_witness :
  engine initial_state = None
  /\ probe_error W_ok = None
  /\ exists st',
       get_db_connection cfg_sample W_ok initial_state
       = (Ok (Some (mk_engine (CONNECTION_STRING cfg_sample) true 3600 30)), st')
       /\ engine st' = Some (mk_engine (CONNECTION_STRING cfg_sample) true 3600 30)
       /\ db_trace st'
          = db_trace initial_state
            ++ [CreateEngine (CONNECTION_STRING cfg_sample); Connect;
                Execute (py "SELECT 1")].
Proof.
  split; [reflexivity|]. split; [reflexivity|].
  destruct (get_db_connection_first_success cfg_sample W_ok initial_state eq_refl)
    as [H _].
  apply H; reflexivity.
Defined.

Lemma get_db_connection_memoizes_witness :
  exists eng,
    Some sample_engine = Some eng
    /\ engine (snd (get_db_connection cfg_sample W_ok initial_state)) = Some eng
    /\ forall cfg' W',
         get_db_connection cfg' W'
           (snd (get_db_connection cfg_sample W_ok initial_state))
         = (Ok (Some eng), snd (get_db_connection cfg_sample W_ok initial_state)).
Proof.
  apply (get_db_connection_memoizes cfg_sample W_ok initial_state
           (Some sample_engine)
           (snd (get_db_connection cfg_sample W_ok initial_state))).
  reflexivity.
Defined.


Lemma query_sql_reports_store_error_witness :
  execute_outcome W_refusing (py "SELECT * FROM missing") = Raise ProgrammingError
  /\ fst (query_sql identity_lower cfg_sample W_refusing (py "SELECT * FROM missing")
            memoized_state)
     = Ok (VDict [(py "error", VStr (exn_msg ProgrammingError));
                  (py "sql", VStr (py "SELECT * FROM missing"))]).
Proof.
  split; [reflexivity|].
  apply (query_sql_reports_store_error identity_lower cfg_sample W_refusing
           (py "SELECT * FROM missing") memoized_state sample_engine
           ProgrammingError).
  - reflexivity.
  - reflexivity.
  - reflexivity.
  - reflexivity.
  - left. reflexivity.
Defined.

Lemma tools_report_connection_failure_witness :
  fst (get_db_connection cfg_sample W_unreachable initial_state)
  = Raise (surfaced_error OperationalError)
  /\ fst (get_table_structure cfg_sample W_unreachable (py "Orders") (py "dbo")
            initial_state)
     = Ok (VDict [(py "error", VStr (exn_msg (surfaced_error OperationalError)));
                  (py "table", VStr (py "Orders")); (py "schema", VStr (py "dbo"))])
  /\ fst (list_tables cfg_sample W_unreachable (py "dbo") initial_state)
     = Ok (VDict [(py "error", VStr (exn_msg (surfaced_error OperationalError)));
                  (py "schema", VStr (py "dbo"))])
  /\ fst (get_database_info cfg_sample W_unreachable initial_state)
     = Ok (VDict [(py "error", VStr (exn_msg (surfaced_error OperationalError)))]).
Proof.
  split; [reflexivity|].
  destruct (tools_report_connection_failure identity_lower cfg_sample W_unreachable
              (py "SELECT 1") (py "Orders") (py "dbo") initial_state
              (surfaced_error OperationalError) eq_refl) as (_ & H2 & H3 & H4).
  split; [exact H2 | split; [exact H3 | exact H4]].
Defined.

Lemma query_sql_cell_values_witness :
  names_key (keys sample_cursor) 1 (py "b")
  /\ exists row_dict,
       nth_error sample_rows 1 = Some (VDict row_dict)
       /\ dict_get row_dict (py "b")
          = Some (match row_get (mk_row [Ok (DInt 2); bad_cell] (py "(2, ?)")) 1 with
                  | Ok v => VAtom v
                  | Raise _ => VNone
                  end)
       /\ ((List.length (cells (mk_row [Ok (DInt 2); bad_cell] (py "(2, ?)"))) <= 1)%nat ->
           dict_get row_dict (py "b") = Some VNone).
Proof.
  assert (Hkey : names_key (keys sample_cursor) 1 (py "b")).
  { split; [reflexivity | intros []]. }
  split; [exact Hkey|].
  apply (query_sql_cell_values identity_lower cfg_sample W_ok
           (py "SELECT a, b FROM t") initial_state sample_cursor sample_rows 1 1
           (mk_row [Ok (DInt 2); bad_cell] (py "(2, ?)")) (py "b")).
  - reflexivity.
  - vm_compute. reflexivity.
  - reflexivity.
  - exact Hkey.
Defined.

Lemma query_sql_duplicate_columns_collapse_witness :
  ~ NoDup (keys twin_cursor)
  /\ exists row_dict,
       VDict [(py "id", VInt 2)] = VDict row_dict
       /\ (List.length (dict_keys row_dict) < List.length (keys twin_cursor))%nat.
Proof.
  assert (Hdup : ~ NoDup (keys twin_cursor)).
  { intros H. inversion H as [|x l Hnot _]. apply Hnot. left. reflexivity. }
  split; [exact Hdup|].
  apply (query_sql_duplicate_columns_collapse identity_lower cfg_sample W_twin
           (py "SELECT id, id FROM t") initial_state twin_cursor
           [VDict [(py "id", VInt 2)]]).
  - reflexivity.
  - vm_compute. reflexivity.
  - exact Hdup.
  - left. reflexivity.
Defined.

Lemma list_tables_rich_entries_witness :
  execute_outcome W_ok (list_tables_sql (py "dbo")) = Ok sample_cursor
  /\ exists tables,
       fst (list_tables cfg_sample W_ok (py "dbo") memoized_state)
       = Ok (VDict [(py "tables", VList tables);
                    (py "count", VInt (Z.of_nat (List.length tables)))])
       /\ entries (text_entry (keys sample_cursor)) (cur_rows sample_cursor) tables.
Proof.
  split; [reflexivity|].
  apply (list_tables_rich_entries cfg_sample W_ok (py "dbo") memoized_state
           sample_engine sample_cursor); reflexivity.
Defined.

Lemma list_tables_simple_entries_witness :
  query_fails W_catalog (list_tables_sql (py "dbo"))
  /\ exists tables,
       fst (list_tables cfg_sample W_catalog (py "dbo") memoized_state)
       = Ok (VDict [(py "tables", VList tables);
                    (py "count", VInt (Z.of_nat (List.length tables)))])
       /\ entries (text_entry_described (keys orders_cursor)) (cur_rows orders_cursor)
            tables.
Proof.
  assert (Hq : query_fails W_catalog (list_tables_sql (py "dbo"))).
  { vm_compute. exact I. }
  split; [exact Hq|].
  apply (list_tables_simple_entries cfg_sample W_catalog (py "dbo") memoized_state
           sample_engine orders_cursor).
  - reflexivity.
  - reflexivity.
  - exact Hq.
  - vm_compute. reflexivity.
  - reflexivity.
Defined.

Lemma list_tables_both_tiers_fail_witness :
  query_fails W_refusing (list_tables_sql (py "dbo"))
  /\ fst (list_tables cfg_sample W_refusing (py "dbo") memoized_state)
     = Ok (VDict [(py "error", VStr (exn_msg ProgrammingError));
                  (py "schema", VStr (py "dbo"))]).
Proof.
  assert (Hq : query_fails W_refusing (list_tables_sql (py "dbo"))).
  { exact I. }
  split; [exact Hq|].
  apply (list_tables_both_tiers_fail cfg_sample W_refusing (py "dbo") memoized_state
           sample_engine ProgrammingError).
  - reflexivity.
  - reflexivity.
  - exact Hq.
  - left. reflexivity.
Defined.

Lemma get_table_structure_entries_witness :
  query_fails W_catalog (columns_sql (py "Orders") (py "dbo"))
  /\ exists columns pks fks idxs,
       fst (get_table_structure cfg_sample W_catalog (py "Orders") (py "dbo")
              memoized_state)
       = Ok (VDict [(py "columns", VList columns);
                    (py "primary_keys", VList pks);
                    (py "foreign_keys", VList fks);
                    (py "indexes", VList idxs)])
       /\ entries (text_entry_described (keys orders_cursor)) (cur_rows orders_cursor)
            columns
       /\ entries (text_entry (keys orders_cursor)) (cur_rows orders_cursor) pks
       /\ entries (text_entry (keys orders_cursor)) (cur_rows orders_cursor) fks
       /\ entries (text_entry (keys orders_cursor)) (cur_rows orders_cursor) idxs.
Proof.
  assert (Hq : query_fails W_catalog (columns_sql (py "Orders") (py "dbo"))).
  { vm_compute. exact I. }
  split; [exact Hq|].
  apply (get_table_structure_entries cfg_sample W_catalog (py "Orders") (py "dbo")
           memoized_state sample_engine true
           orders_cursor orders_cursor orders_cursor orders_cursor).
  - reflexivity.
  - reflexivity.
  - split; [exact Hq | vm_compute; reflexivity].
  - vm_compute. reflexivity.
  - vm_compute. reflexivity.
  - vm_compute. reflexivity.
  - reflexivity.
  - reflexivity.
  - reflexivity.
  - reflexivity.
Defined.

Lemma get_table_structure_unknown_table_witness :
  cur_rows (empty_cursor [py "name"]) = []
  /\ fst (get_table_structure cfg_sample W_empty (py "Nowhere") (py "dbo")
            memoized_state)
     = Ok (VDict [(py "columns", VList []);
                  (py "primary_keys", VList []);
                  (py "foreign_keys", VList []);
                  (py "indexes", VList [])]).
Proof.
  split; [reflexivity|].
  apply (get_table_structure_unknown_table cfg_sample W_empty (py "Nowhere") (py "dbo")
           memoized_state sample_engine
           (empty_cursor [py "name"]) (empty_cursor [py "name"])
           (empty_cursor [py "name"]) (empty_cursor [py "name"]));
    try reflexivity.
  intros c [<- | [<- | [<- | [<- | []]]]]; split; reflexivity.
Defined.

Lemma get_database_info_answer_witness :
  first_value sample_cursor = Ok (DInt 1)
  /\ fst (get_database_info cfg_sample W_ok memoized_state)
     = Ok (VDict [(py "database_name", VAtom (DInt 1));
                  (py "version", VAtom (DInt 1));
                  (py "schemas", VList (map VAtom [DInt 1; DInt 2]));
                  (py "connection",
                   VDict [(py "host", env_value (DB_HOST cfg_sample));
                          (py "port", env_value (DB_PORT cfg_sample));
                          (py "database", env_value (DB_NAME cfg_sample));
                          (py "user", env_value (DB_USER cfg_sample))])]).
Proof.
  split; [reflexivity|].
  apply (get_database_info_answer cfg_sample W_ok memoized_state sample_engine
           sample_cursor sample_cursor sample_cursor);
    try reflexivity.
  repeat constructor.
Defined.

Lemma get_database_info_bad_schema_cell_witness :
  row_get (mk_row [bad_cell] (py "(?,)")) 0
  = Raise (mk_exn false (py "cannot convert") None)
  /\ fst (get_database_info cfg_sample W_broken memoized_state)
     = Ok (VDict [(py "error", VStr (py "cannot convert"))]).
Proof.
  split; [reflexivity|].
  apply (get_database_info_bad_schema_cell cfg_sample W_broken memoized_state
           sample_engine broken_cursor broken_cursor broken_cursor
           (DStr (py "dbo")) (DStr (py "dbo"))
           [mk_row [Ok (DStr (py "dbo"))] (py "('dbo',)")]
           [mk_row [Ok (DStr (py "sys"))] (py "('sys',)")]
           [DStr (py "dbo")]
           (mk_row [bad_cell] (py "(?,)"))
           (mk_exn false (py "cannot convert") None));
    try reflexivity.
  repeat constructor.
Defined.

Lemma get_database_info_ignores_password_witness :
  DB_PASSWORD cfg_sample <> DB_PASSWORD cfg_other_password
  /\ get_database_info cfg_sample W_ok memoized_state
     = get_database_info cfg_other_password W_ok memoized_state.
Proof.
  split; [discriminate|].
  apply (get_database_info_ignores_password cfg_sample cfg_other_password W_ok
           memoized_state sample_engine); reflexivity.
Defined.
